(** * The command line of the Vim emulation: [src/cmd_line/commandLine.ts]

    A shallow embedding of the [CommandLine] class: the dispatcher [Run], the
    history picker [ShowHistory] and the quick-pick prompt [promptForCommand],
    with the properties of the specification stated over them.

    JavaScript strings are modelled by [string]; only the first character
    (a colon, a space) and equality with a literal are ever inspected. *)

From Stdlib Require Import String Ascii List ZArith Lia Bool Decimal DecimalString.
From stdpp Require Import base option gmap strings list.

Open Scope string_scope.
Open Scope list_scope.

(** ** Collaborators declared outside this file *)

(** Modelled from the spec: the enum [ErrorCode] of [../error] is not among
    the sources.  Its members are numeric; the only member named in this file
    is [E492], the "unknown command" code. *)
Definition ErrorCode := N.
Definition E492 : ErrorCode := 492%N.

(** Modelled from the spec: the class [VimError] of [../error] is not among
    the sources.  This file reads [e.code] and calls [e.toString()]; the record
    carries the code and the rendered text. *)
Record VimError := { code : ErrorCode; toString : string }.

(** What a [throw] can carry: a [VimError] ([e instanceof VimError]) or any
    other value, kept with its rendering [`${e}`]. *)
Inductive Exn :=
| ExVimError (e : VimError)
| ExOther (rendering : string).

Definition render (e : Exn) : string :=
  match e with
  | ExVimError v => toString v
  | ExOther s => s
  end.

(** Modelled from the spec: [ModeName] of [../mode/mode] is a numeric enum
    that is not among the sources; [Normal] is its first member. *)
Definition ModeName := N.
Definition Normal : ModeName := 0%N.

(** The two fields of [VimState] this file reads. *)
Record VimState := { currentMode : ModeName; isRecordingMacro : bool }.

(** Modelled from the spec: [CommandLineHistory] of [../history/historyFile]
    is not among the sources.  Section 4.1: [add] appends unconditionally with
    no validation, [get] returns the full sequence, oldest first. *)
Module CommandLineHistory.
Definition t := list string.
Definition empty : t := [].
Definition add (value : string) (h : t) : t := h ++ [value].
Definition get (h : t) : list string := h.
End CommandLineHistory.

(** [vscode.Memento]: a key-value store; [get] falls back on the default
    when the key is absent, [update] stores the value under the key. *)
Module Memento.
Definition get (m : gmap string (list string)) (key : string)
    (defaultValue : list string) : list string :=
  default defaultValue (m !! key).
Definition update (m : gmap string (list string)) (key : string)
    (value : list string) : gmap string (list string) :=
  <[key := value]> m.
End Memento.

Definition VIM_HISTORY_KEY : string := "VIM_HISTORY_KEY".

(** ** The calls [CommandLine] makes to the outside, in order *)

Inductive Event :=
| EvParse (text : string)
| EvExecute (text : string)
| EvNvimRun (text : string)
| EvStatusBarSet (text : string) (mode : ModeName) (isRecording isError : bool)
| EvLogError (text : string)
| EvLogDebug (text : string)
| EvShowQuickPick (items : list string).

(** Result of a call: it returns or it throws. *)
Inductive Completion (A : Type) :=
| Return (a : A)
| Throw (e : Exn).
Arguments Return {A} a.
Arguments Throw {A} e.

(** [cmd.command && cmd.command.neovimCapable] and [cmd.execute]. *)
Record CommandBase := { neovimCapable : bool }.
Module ParsedCommandLine.
Record t := {
  command : option CommandBase;
  execute : list Event -> Completion unit
}.
End ParsedCommandLine.

(** The behaviour of everything [CommandLine] calls.  Each collaborator sees
    the calls made so far, so its answer may differ from call to call. *)
Record Env := {
  enableNeovim : bool;
  parser_parse : list Event -> string -> Completion ParsedCommandLine.t;
  nvim_run : list Event -> string -> Completion string;
  StatusBar_Set : list Event -> string -> ModeName -> bool -> bool -> Completion unit;
  activeTextEditor : bool;
  showQuickPick : list Event -> list string -> option string
}.

(** ** The object and the monad of its methods *)

Record CommandLine := {
  _history : CommandLineHistory.t;
  _memo : option (gmap string (list string));
  _commandLineHistoryIndex : Z;
  previousMode : ModeName
}.

(** [new CommandLine()]. *)
Definition new_CommandLine : CommandLine :=
  {| _history := CommandLineHistory.empty; _memo := None;
     _commandLineHistoryIndex := 0; previousMode := Normal |}.

Definition setMemo (memo : gmap string (list string)) (this : CommandLine) : CommandLine :=
  {| _history := _history this; _memo := Some memo;
     _commandLineHistoryIndex := _commandLineHistoryIndex this;
     previousMode := previousMode this |}.

Definition historyEntries (this : CommandLine) : list string :=
  CommandLineHistory.get (_history this).

Record World := { this : CommandLine; trace : list Event }.

Definition M (A : Type) : Type := World -> World * Completion A.

Definition ret {A} (a : A) : M A := fun w => (w, Return a).

Definition bind {A B} (m : M A) (k : A -> M B) : M B :=
  fun w =>
    match m w with
    | (w', Return a) => k a w'
    | (w', Throw e) => (w', Throw e)
    end.

(** [try { body } catch (e) { handler }]. *)
Definition try_catch {A} (body : M A) (handler : Exn -> M A) : M A :=
  fun w =>
    match body w with
    | (w', Return a) => (w', Return a)
    | (w', Throw e) => handler e w'
    end.

Declare Scope cmdline_scope.
Delimit Scope cmdline_scope with cmdline.
Notation "x <- m ;; k" := (bind m (fun x => k))
  (at level 100, m at next level, right associativity) : cmdline_scope.
Notation "m ;;; k" := (bind m (fun _ => k))
  (at level 100, right associativity) : cmdline_scope.

(** A call to a collaborator: it is recorded, then answered from the calls
    made before it. *)
Definition emit (ev : Event) (w : World) : World :=
  {| this := this w; trace := trace w ++ [ev] |}.

Definition call {A} (ev : Event) (answer : list Event -> Completion A) : M A :=
  fun w => (emit ev w, answer (trace w)).

Definition modify (f : CommandLine -> CommandLine) : M unit :=
  fun w => ({| this := f (this w); trace := trace w |}, Return tt).

Definition history_add (value : string) (c : CommandLine) : CommandLine :=
  {| _history := CommandLineHistory.add value (_history c); _memo := _memo c;
     _commandLineHistoryIndex := _commandLineHistoryIndex c;
     previousMode := previousMode c |}.

Definition set_commandLineHistoryIndex (index : Z) (c : CommandLine) : CommandLine :=
  {| _history := _history c; _memo := _memo c;
     _commandLineHistoryIndex := index; previousMode := previousMode c |}.

(** Lines 64-66: [if (command[0] === ':') command = command.slice(1)]. *)
Definition strip_colon (command : string) : string :=
  match command with
  | String ":" rest => rest
  | _ => command
  end.

Section Dispatcher.
Variable env : Env.
Variable vimState : VimState.

Open Scope cmdline_scope.

Definition StatusBar_Set_error (text : string) : M unit :=
  call (EvStatusBarSet text (currentMode vimState) (isRecordingMacro vimState) true)
       (fun tr => StatusBar_Set env tr text (currentMode vimState)
                    (isRecordingMacro vimState) true).

Definition logger_error (text : string) : M unit :=
  call (EvLogError text) (fun _ => Return tt).

Definition logger_debug (text : string) : M unit :=
  call (EvLogDebug text) (fun _ => Return tt).

(** Line 78: [configuration.enableNeovim && cmd.command &&
    cmd.command.neovimCapable]. *)
Definition useNeovim (cmd : ParsedCommandLine.t) : bool :=
  enableNeovim env &&
  match ParsedCommandLine.command cmd with
  | Some c => neovimCapable c
  | None => false
  end.

(** Lines 77-85, the body of the [try]. *)
Definition Run_try (command : string) : M unit :=
  cmd <- call (EvParse command) (fun tr => parser_parse env tr command) ;;
  if useNeovim cmd then
    statusBarText <- call (EvNvimRun command) (fun tr => nvim_run env tr command) ;;
    StatusBar_Set_error statusBarText
  else
    call (EvExecute command) (ParsedCommandLine.execute cmd).

(** Lines 86-101, the [catch] clause. *)
Definition Run_catch (command : string) (e : Exn) : M unit :=
  match e with
  | ExVimError e =>
      if (code e =? E492)%N && enableNeovim env then
        _ <- call (EvNvimRun command) (fun tr => nvim_run env tr command) ;;
        ret tt
      else
        StatusBar_Set_error (toString e +:+ ". " +:+ command)
  | ExOther _ =>
      logger_error ("Error executing cmd=" +:+ command +:+ ". err=" +:+ render e +:+ ".")
  end.

(** [CommandLine.Run]; an absent ([undefined]) text is [None]. *)
Definition Run (command : option string) : M unit :=
  match command with
  | None => ret tt
  | Some command =>
      if (String.length command =? 0)%nat then ret tt
      else
        let command := strip_colon command in
        if String.eqb command "help" then
          StatusBar_Set_error ":help Not supported."
        else
          modify (history_add command) ;;;
          modify (fun c => set_commandLineHistoryIndex
                             (Z.of_nat (length (CommandLineHistory.get (_history c)))) c) ;;;
          try_catch (Run_try command) (Run_catch command)
  end.

(** [CommandLine.ShowHistory]. *)
Definition ShowHistory (initialText : string) : M (option string) :=
  if negb (activeTextEditor env) then
    logger_debug "No active document." ;;;
    ret (Some "")
  else
    modify (history_add initialText) ;;;
    fun w =>
      let items := rev (CommandLineHistory.get (_history (this w))) in
      call (EvShowQuickPick items) (fun tr => Return (showQuickPick env tr items)) w.

End Dispatcher.

(** ** The quick-pick prompt, [promptForCommand] *)

(** ['input' | 'history']. *)
Inductive ItemType := Tinput | Thistory.

Record CommandItem := {
  type : ItemType;
  label : string;
  description : option string
}.

(** The part of [vscode.QuickPick] the prompt touches. *)
Record QuickPick := {
  placeholder : string;
  items : list CommandItem;
  visible : bool;
  disposed : bool
}.

(** [vscode.window.createQuickPick()]. *)
Definition createQuickPick : QuickPick :=
  {| placeholder := ""; items := []; visible := false; disposed := false |}.

(** The three listeners registered on the widget; each registration yields
    one [vscode.Disposable]. *)
Inductive Subscription := onDidChangeValue | onDidChangeSelection | onDidHide.

Global Instance Subscription_eq_dec : EqDecision Subscription.
Proof. solve_decision. Defined.

(** What the widget reports back while it is open. *)
Inductive WidgetEvent :=
| ChangeValue (value : string)
| ChangeSelection (selected : list CommandItem)
| Hide.

(** One invocation of the prompt: the widget, the array [disposables], every
    [dispose()] call made on a subscription so far, the promise (pending, or
    resolved with a text or with [undefined]), and the object owning [_memo]. *)
Record Prompt := {
  input : QuickPick;
  disposables : list Subscription;
  released : list Subscription;
  settled : option (option string);
  owner : CommandLine
}.

Definition set_input (q : QuickPick) (p : Prompt) : Prompt :=
  {| input := q; disposables := disposables p; released := released p;
     settled := settled p; owner := owner p |}.

Definition set_items (l : list CommandItem) (p : Prompt) : Prompt :=
  set_input {| placeholder := placeholder (input p); items := l;
               visible := visible (input p); disposed := disposed (input p) |} p.

(** [resolve(value)]: a promise settles once, later calls do nothing. *)
Definition resolve (value : option string) (p : Prompt) : Prompt :=
  match settled p with
  | Some _ => p
  | None =>
      {| input := input p; disposables := disposables p; released := released p;
         settled := Some value; owner := owner p |}
  end.

Definition set_memo (m : gmap string (list string)) (p : Prompt) : Prompt :=
  {| input := input p; disposables := disposables p; released := released p;
     settled := settled p;
     owner := {| _history := _history (owner p); _memo := Some m;
                 _commandLineHistoryIndex := _commandLineHistoryIndex (owner p);
                 previousMode := previousMode (owner p) |} |}.

(** A listener runs only between its registration and its disposal. *)
Definition live (s : Subscription) (p : Prompt) : bool :=
  bool_decide (s ∈ disposables p) && negb (bool_decide (s ∈ released p)).

(** Lines 123-136. *)
Definition updateQuickPick (value : string) (p : Prompt) : Prompt :=
  if (String.length value =? 0)%nat then
    match items (input p) with
    | {| type := Tinput |} :: rest => set_items rest p
    | _ => p
    end
  else
    match items (input p) with
    | {| type := Tinput |} :: rest =>
        set_items ({| type := Tinput; label := value; description := Some "(input)" |} :: rest) p
    | l =>
        set_items ({| type := Tinput; label := value; description := Some "(input)" |} :: l) p
    end.

(** Lines 158-161, the [onDidHide] listener. *)
Definition hide_listener (p : Prompt) : Prompt :=
  let p := resolve None p in
  set_input {| placeholder := placeholder (input p); items := items (input p);
               visible := visible (input p); disposed := true |} p.

Section Prompt.
(** Whether [input.hide()] runs the [onDidHide] listener before it returns,
    or leaves the event to a later turn of the event loop. *)
Variable hide_fires_at_once : bool.

(** [input.hide()]. *)
Definition hide (p : Prompt) : Prompt :=
  let p := set_input {| placeholder := placeholder (input p); items := items (input p);
                        visible := false; disposed := disposed (input p) |} p in
  if hide_fires_at_once && live onDidHide p then hide_listener p else p.

(** Lines 140-157, the [onDidChangeSelection] listener.  With an empty
    selection [items[0]] is [undefined] and reading its [type] throws inside
    the listener: nothing is resolved and nothing is stored. *)
Definition selection_listener (selected : list CommandItem) (p : Prompt) : Prompt :=
  match selected with
  | [] => p
  | item :: _ =>
      match type item with
      | Thistory => hide (resolve (Some (label item)) p)
      | Tinput =>
          let p := hide (resolve (Some (label item)) p) in
          if negb (String.prefix " " (label item)) then
            match _memo (owner p) with
            | Some memo =>
                let currentHistory := Memento.get memo VIM_HISTORY_KEY [] in
                let currentHistory := label item :: currentHistory in
                set_memo (Memento.update memo VIM_HISTORY_KEY currentHistory) p
            | None => p
            end
          else p
      end
  end.

(** The widget delivers an event to the listener subscribed to it. *)
Definition deliver (ev : WidgetEvent) (p : Prompt) : Prompt :=
  match ev with
  | ChangeValue value => if live onDidChangeValue p then updateQuickPick value p else p
  | ChangeSelection selected =>
      if live onDidChangeSelection p then selection_listener selected p else p
  | Hide => if live onDidHide p then hide_listener p else p
  end.

(** Lines 119-172, the executor of the promise: it runs to its end before
    the widget can report anything. *)
Definition executor (text : string) (c : CommandLine) : Prompt :=
  let input := createQuickPick in
  let input := {| placeholder := "Vim command Line";
                  items := if (String.length text =? 0)%nat then []
                           else [{| type := Tinput; label := text;
                                    description := Some "(input" |}];
                  visible := visible input; disposed := disposed input |} in
  let disposables := [] ++ [onDidChangeValue; onDidChangeSelection; onDidHide] in
  let input := {| placeholder := placeholder input; items := items input;
                  visible := true; disposed := disposed input |} in
  let historyItems :=
    match _memo c with
    | None => []
    | Some memo =>
        imap (fun index cmd =>
                {| type := Thistory; label := cmd;
                   description :=
                     Some ("(history item " +:+
                           NilZero.string_of_uint (Nat.to_uint index) +:+ ")") |})
             (Memento.get memo VIM_HISTORY_KEY [])
    end in
  {| input := {| placeholder := placeholder input;
                 items := items input ++ historyItems;
                 visible := visible input; disposed := disposed input |};
     disposables := disposables; released := []; settled := None; owner := c |}.

(** The event loop while the promise is pending: events are handled one at
    a time, and the [await] resumes after the listener that settled it. *)
Fixpoint pump (p : Prompt) (script : list WidgetEvent) : Prompt :=
  match settled p, script with
  | None, ev :: rest => pump (deliver ev p) rest
  | _, _ => p
  end.

(** Lines 174-176, [finally { disposables.forEach(d => d.dispose()) }]. *)
Definition finally (p : Prompt) : Prompt :=
  {| input := input p; disposables := disposables p;
     released := released p ++ disposables p;
     settled := settled p; owner := owner p |}.

(** [promptForCommand]: the value the promise resolved with and the state
    left behind, or [None] when the widget never settles the promise. *)
Definition promptForCommand (text : string) (c : CommandLine)
    (script : list WidgetEvent) : option (option string * Prompt) :=
  let p := pump (executor text c) script in
  match settled p with
  | Some value => Some (value, finally p)
  | None => None
  end.

End Prompt.

(** [CommandLine.PromptAndRun], with [newMethod] true: the prompt, then
    [Run] on what it resolved with.  [None] when the prompt never settles. *)
Definition PromptAndRun (env : Env) (vimState : VimState) (hide_fires_at_once : bool)
    (initialText : string) (script : list WidgetEvent) (w : World)
    : option (World * Completion unit) :=
  if negb (activeTextEditor env) then
    Some (logger_debug "No active document" w)
  else
    match promptForCommand hide_fires_at_once initialText (this w) script with
    | None => None
    | Some (cmd, p) => Some (Run env vimState cmd {| this := owner p; trace := trace w |})
    end.

(** The terminal events: a selection that carries an item, or a dismissal. *)
Definition is_terminal (ev : WidgetEvent) : bool :=
  match ev with
  | ChangeSelection (_ :: _) => true
  | Hide => true
  | _ => false
  end.

(** The persisted history as the prompt reads it. *)
Definition persisted (c : CommandLine) : list string :=
  match _memo c with
  | Some memo => Memento.get memo VIM_HISTORY_KEY []
  | None => []
  end.

(** The texts shown by the status display and sent to the fallback engine. *)
Definition status_updates (tr : list Event) : list string :=
  omap (fun ev => match ev with EvStatusBarSet text _ _ _ => Some text | _ => None end) tr.

Definition nvim_calls (tr : list Event) : list string :=
  omap (fun ev => match ev with EvNvimRun text => Some text | _ => None end) tr.

Definition parser_calls (tr : list Event) : list string :=
  omap (fun ev => match ev with EvParse text => Some text | _ => None end) tr.

Definition log_errors (tr : list Event) : list string :=
  omap (fun ev => match ev with EvLogError text => Some text | _ => None end) tr.

(** ** Sample collaborators *)

(** A parser that rejects every text with the given error, an engine that
    answers as told, a status display that accepts every update. *)
Definition rejecting_env (neovim : bool) (e : Exn) (answer : Completion string) : Env :=
  {| enableNeovim := neovim;
     parser_parse := fun _ _ => Throw e;
     nvim_run := fun _ _ => answer;
     StatusBar_Set := fun _ _ _ _ _ => Return tt;
     activeTextEditor := true;
     showQuickPick := fun _ _ => None |}.

(** A parser that accepts every text as a command with the given delegable
    flag and native outcome. *)
Definition accepting_env (neovim capable active : bool) (outcome : Completion unit)
    (answer : Completion string) (pick : option string) : Env :=
  {| enableNeovim := neovim;
     parser_parse := fun _ _ =>
       Return {| ParsedCommandLine.command := Some {| neovimCapable := capable |};
                 ParsedCommandLine.execute := fun _ => outcome |};
     nvim_run := fun _ _ => answer;
     StatusBar_Set := fun _ _ _ _ _ => Return tt;
     activeTextEditor := active;
     showQuickPick := fun _ _ => pick |}.

Definition normal_state : VimState := {| currentMode := Normal; isRecordingMacro := false |}.

Definition fresh_world : World := {| this := new_CommandLine; trace := [] |}.

Definition E492_error : VimError := {| code := E492; toString := "E492: Not an editor command" |}.
Definition E37_error : VimError := {| code := 37%N; toString := "E37: No write since last change" |}.

(** A command line whose memento holds two persisted commands, and the
    typed item the prompt builds for a text. *)
Definition remembering : CommandLine :=
  setMemo {[ VIM_HISTORY_KEY := ["w"; "q"] ]} new_CommandLine.

Definition typed (text : string) : CommandItem :=
  {| type := Tinput; label := text; description := Some "(input)" |}.

Definition recalled (text : string) (index : string) : CommandItem :=
  {| type := Thistory; label := text;
     description := Some ("(history item " +:+ index +:+ ")") |}.

(** ** Notions used in the statements *)

(** The world after lines 73-74: the command is recorded and the cursor is
    moved past the last entry. *)
Definition recorded (command : string) (w : World) : World :=
  {| this :=
       set_commandLineHistoryIndex
         (Z.of_nat (length (CommandLineHistory.get (_history (history_add command (this w))))))
         (history_add command (this w));
     trace := trace w |}.

(** The parse or the execution (native, or by the fallback engine when the
    parsed command is delegated) of [command] fails with the domain error [e]. *)
Definition domain_failure (env : Env) (command : string) (tr : list Event)
    (e : VimError) : Prop :=
  match parser_parse env tr command with
  | Throw e' => e' = ExVimError e
  | Return cmd =>
      if useNeovim env cmd
      then nvim_run env (tr ++ [EvParse command]) command = Throw (ExVimError e)
      else ParsedCommandLine.execute cmd (tr ++ [EvParse command]) = Throw (ExVimError e)
  end.

(** The prompt between the end of the executor and the first terminal event:
    the promise is pending and the three subscriptions are registered and not
    yet disposed. *)
Definition is_open (p : Prompt) : Prop :=
  settled p = None /\
  disposables p = [onDidChangeValue; onDidChangeSelection; onDidHide] /\
  released p = [].

(** A list with no recalled entry: at most the typed item. *)
Definition typed_only (l : list CommandItem) : Prop :=
  Forall (fun i => type i = Tinput) l /\ length l <= 1.

(** Whether selecting [item] writes the persisted history of [c]. *)
Definition stores (item : CommandItem) (c : CommandLine) : bool :=
  match type item with
  | Tinput => negb (String.prefix " " (label item)) && bool_decide (is_Some (_memo c))
  | Thistory => false
  end.

(** Lines 164-171: the recalled items the executor builds from the memento,
    one per stored command, in stored order. *)
Definition recalled_items (c : CommandLine) : list CommandItem :=
  match _memo c with
  | None => []
  | Some memo =>
      imap (fun index cmd =>
              {| type := Thistory; label := cmd;
                 description :=
                   Some ("(history item " +:+
                         NilZero.string_of_uint (Nat.to_uint index) +:+ ")") |})
           (Memento.get memo VIM_HISTORY_KEY [])
  end.

Global Instance ItemType_eq_dec : EqDecision ItemType.
Proof. solve_decision. Defined.

(** The list on display: at most the typed item, then the recalled items
    built when the prompt opened. *)
Definition on_display (c : CommandLine) (p : Prompt) : Prop :=
  exists head, items (input p) = head ++ recalled_items c /\ typed_only head.

(** A command line whose memento also holds a key of another owner. *)
Definition sharing : CommandLine :=
  setMemo {[ VIM_HISTORY_KEY := ["w"]; "OTHER_KEY" := ["x"] ]} new_CommandLine.

(** The texts [Run] goes on to record and parse: present, not empty, and not
    "help" once a leading colon is removed. *)
Definition recordable (command : option string) : bool :=
  match command with
  | None => false
  | Some text =>
      negb (String.length text =? 0)%nat && negb (String.eqb (strip_colon text) "help")
  end.

(** What [Run] hands to the history for a text. *)
Definition recorded_text (command : option string) : option string :=
  match command with
  | Some text => if recordable command then Some (strip_colon text) else None
  | None => None
  end.

(** A caller that awaits [Run] on one text after the other and goes on
    whatever way each call completes. *)
Definition Run_all (env : Env) (vimState : VimState) (commands : list (option string))
    (w : World) : World :=
  fold_left (fun w command => fst (Run env vimState command w)) commands w.

(** The engine calls in a trace, and the native executions. *)
Definition execute_calls (tr : list Event) : list string :=
  omap (fun ev => match ev with EvExecute text => Some text | _ => None end) tr.

(** ** Facts about the dispatcher *)

Lemma nonempty_length (text : string) :
  text <> "" -> (String.length text =? 0)%nat = false.
Proof. destruct text; [congruence | reflexivity]. Qed.

Section DispatcherFacts.
Variable env : Env.
Variable vs : VimState.

Lemma Run_dispatch (text : string) (w : World) :
  text <> "" -> strip_colon text <> "help" ->
  Run env vs (Some text) w =
  try_catch (Run_try env vs (strip_colon text)) (Run_catch env vs (strip_colon text))
            (recorded (strip_colon text) w).
Proof.
  intros Hne Hhelp. unfold Run.
  rewrite (nonempty_length _ Hne).
  apply String.eqb_neq in Hhelp. rewrite Hhelp. reflexivity.
Qed.

(** The [try] body, call by call. *)
Lemma Run_try_unfold (command : string) (w : World) :
  Run_try env vs command w =
  match parser_parse env (trace w) command with
  | Throw e => (emit (EvParse command) w, Throw e)
  | Return cmd =>
      let w1 := emit (EvParse command) w in
      if useNeovim env cmd then
        match nvim_run env (trace w1) command with
        | Throw e => (emit (EvNvimRun command) w1, Throw e)
        | Return statusBarText =>
            let w2 := emit (EvNvimRun command) w1 in
            (emit (EvStatusBarSet statusBarText (currentMode vs) (isRecordingMacro vs) true) w2,
             StatusBar_Set env (trace w2) statusBarText (currentMode vs)
               (isRecordingMacro vs) true)
        end
      else (emit (EvExecute command) w1, ParsedCommandLine.execute cmd (trace w1))
  end.
Proof.
  unfold Run_try, bind, call, StatusBar_Set_error.
  destruct (parser_parse env (trace w) command) as [cmd|e]; [|reflexivity].
  destruct (useNeovim env cmd); [|reflexivity].
  unfold bind, call.
  destruct (nvim_run env _ command); reflexivity.
Qed.

Lemma Run_try_this (command : string) (w : World) :
  this (fst (Run_try env vs command w)) = this w.
Proof.
  rewrite Run_try_unfold.
  destruct (parser_parse env (trace w) command) as [cmd|e]; [|reflexivity].
  cbv zeta. destruct (useNeovim env cmd); [|reflexivity].
  destruct (nvim_run env _ command); reflexivity.
Qed.

(** The [catch] clause on the "unknown command" error with the fallback
    enabled: one call of the engine, whose answer is dropped. *)
Lemma Run_catch_unknown_command (command : string) (e : VimError) (w : World) :
  code e = E492 -> enableNeovim env = true ->
  Run_catch env vs command (ExVimError e) w =
  (emit (EvNvimRun command) w,
   match nvim_run env (trace w) command with
   | Return _ => Return tt
   | Throw e' => Throw e'
   end).
Proof.
  intros Hc Hn. unfold Run_catch. rewrite Hc, Hn. simpl.
  unfold bind, call, ret.
  destruct (nvim_run env (trace w) command); reflexivity.
Qed.

(** The [catch] clause on any other domain error. *)
Lemma Run_catch_domain_error (command : string) (e : VimError) (w : World) :
  code e <> E492 \/ enableNeovim env = false ->
  Run_catch env vs command (ExVimError e) w =
  (emit (EvStatusBarSet (toString e +:+ ". " +:+ command)
                        (currentMode vs) (isRecordingMacro vs) true) w,
   StatusBar_Set env (trace w) (toString e +:+ ". " +:+ command)
     (currentMode vs) (isRecordingMacro vs) true).
Proof.
  intros H. unfold Run_catch.
  assert (Hc : ((code e =? E492)%N && enableNeovim env) = false).
  { destruct H as [H|H].
    - apply N.eqb_neq in H. rewrite H. reflexivity.
    - rewrite H. apply andb_false_r. }
  rewrite Hc. reflexivity.
Qed.

Lemma Run_catch_this (command : string) (e : Exn) (w : World) :
  this (fst (Run_catch env vs command e w)) = this w.
Proof.
  destruct e as [v|s]; [|reflexivity].
  unfold Run_catch.
  destruct ((code v =? E492)%N && enableNeovim env); [|reflexivity].
  unfold bind, call. destruct (nvim_run env (trace w) command); reflexivity.
Qed.

Lemma try_catch_Run_this (command : string) (w : World) :
  this (fst (try_catch (Run_try env vs command) (Run_catch env vs command) w)) = this w.
Proof.
  unfold try_catch.
  pose proof (Run_try_this command w) as Ht.
  destruct (Run_try env vs command w) as [w' [a|e]]; simpl in *; [exact Ht|].
  rewrite Run_catch_this. exact Ht.
Qed.

Lemma status_updates_emit (ev : Event) (w : World) :
  status_updates (trace (emit ev w)) =
  status_updates (trace w) ++
  match ev with EvStatusBarSet text _ _ _ => [text] | _ => [] end.
Proof.
  unfold status_updates, emit. simpl. rewrite omap_app.
  destruct ev; reflexivity.
Qed.

End DispatcherFacts.

Section DispatcherClaims.
Variable env : Env.
Variable vs : VimState.

Lemma domain_failure_try (command : string) (w : World) (e : VimError) :
  domain_failure env command (trace w) e ->
  exists w2,
    Run_try env vs command w = (w2, Throw (ExVimError e)) /\
    status_updates (trace w2) = status_updates (trace w).
Proof.
  unfold domain_failure. intros H. rewrite Run_try_unfold.
  destruct (parser_parse env (trace w) command) as [cmd|e'].
  - cbv zeta. destruct (useNeovim env cmd).
    + change (trace (emit (EvParse command) w)) with (trace w ++ [EvParse command]).
      rewrite H. eexists; split; [reflexivity|].
      rewrite !status_updates_emit, !app_nil_r. reflexivity.
    + change (trace (emit (EvParse command) w)) with (trace w ++ [EvParse command]).
      rewrite H. eexists; split; [reflexivity|].
      rewrite !status_updates_emit, !app_nil_r. reflexivity.
  - subst e'. eexists; split; [reflexivity|].
    rewrite status_updates_emit, app_nil_r. reflexivity.
Qed.

(** C5. When the parse or the execution of a command fails with a domain
    error whose code is not E492, or with any domain error while the
    fallback is disabled, [Run] makes exactly one status update, whose text
    is the formatted error, a full stop and the command text as dispatched
    (a leading colon removed); the handler makes no call to the fallback
    engine: the update is the only call after the failure. *)
Theorem Run_reports_domain_error (text : string) (w : World) (e : VimError) :
  text <> "" -> strip_colon text <> "help" ->
  domain_failure env (strip_colon text) (trace w) e ->
  code e <> E492 \/ enableNeovim env = false ->
  let command := strip_colon text in
  let message := toString e +:+ ". " +:+ command in
  let w' := fst (Run env vs (Some text) w) in
  exists w2,
    Run_try env vs command (recorded command w) = (w2, Throw (ExVimError e)) /\
    w' = emit (EvStatusBarSet message (currentMode vs) (isRecordingMacro vs) true) w2 /\
    status_updates (trace w') = status_updates (trace w) ++ [message] /\
    nvim_calls (trace w') = nvim_calls (trace w2).
Proof.
  intros Hne Hhelp Hfail Hcode command message w'.
  destruct (domain_failure_try command (recorded command w) e Hfail) as (w2 & Htry & Hst).
  exists w2. split; [exact Htry|].
  assert (Hw' : w' = emit (EvStatusBarSet message (currentMode vs)
                             (isRecordingMacro vs) true) w2).
  { unfold w'. rewrite (Run_dispatch env vs text w Hne Hhelp).
    unfold try_catch. fold command. rewrite Htry.
    rewrite (Run_catch_domain_error env vs command e w2 Hcode). reflexivity. }
  split; [exact Hw'|]. rewrite Hw'. split.
  - rewrite status_updates_emit, Hst. reflexivity.
  - unfold nvim_calls, emit. simpl. rewrite omap_app. simpl. apply app_nil_r.
Qed.

(** C6. For the texts "help" and ":help" [Run] makes one call only, the
    status update with the fixed message: the parser is not called, and
    the history and its cursor are left as they were. *)
Theorem Run_help_not_supported (w : World) :
  Run env vs (Some ":help") w = Run env vs (Some "help") w /\
  let w' := fst (Run env vs (Some "help") w) in
  trace w' = trace w ++ [EvStatusBarSet ":help Not supported." (currentMode vs)
                           (isRecordingMacro vs) true] /\
  parser_calls (trace w') = parser_calls (trace w) /\
  status_updates (trace w') = status_updates (trace w) ++ [":help Not supported."] /\
  this w' = this w.
Proof.
  split; [reflexivity|]. cbv zeta. simpl.
  repeat split.
  - unfold parser_calls. rewrite omap_app. simpl. apply app_nil_r.
  - unfold status_updates. rewrite omap_app. reflexivity.
Qed.

(** C3, as amended. An absent or empty text returns at once.  For any other
    text than "help" and ":help", a failure raised inside the [try] block, by
    the parser, the native execution, the fallback engine or the status
    display, is caught.  When it is not a domain error it is logged once, no
    status update follows and [Run] returns normally; when the block
    succeeds [Run] returns normally; a domain error is handed to the handler,
    which makes one call, to the fallback engine for the code E492 with the
    fallback enabled and to the status display otherwise, and [Run] returns
    normally whenever that call returns. *)
Theorem Run_catches_failures_of_try (w : World) :
  Run env vs None w = (w, Return tt) /\
  Run env vs (Some "") w = (w, Return tt) /\
  forall text, text <> "" -> strip_colon text <> "help" ->
    let command := strip_colon text in
    let w2 := fst (Run_try env vs command (recorded command w)) in
    match snd (Run_try env vs command (recorded command w)) with
    | Return _ => Run env vs (Some text) w = (w2, Return tt)
    | Throw (ExOther s) =>
        Run env vs (Some text) w =
        (emit (EvLogError ("Error executing cmd=" +:+ command +:+ ". err=" +:+ s +:+ ".")) w2,
         Return tt) /\
        status_updates (trace (fst (Run env vs (Some text) w))) = status_updates (trace w2)
    | Throw (ExVimError e) =>
        if (code e =? E492)%N && enableNeovim env then
          fst (Run env vs (Some text) w) = emit (EvNvimRun command) w2 /\
          (forall answer, nvim_run env (trace w2) command = Return answer ->
           snd (Run env vs (Some text) w) = Return tt)
        else
          let message := toString e +:+ ". " +:+ command in
          fst (Run env vs (Some text) w) =
            emit (EvStatusBarSet message (currentMode vs) (isRecordingMacro vs) true) w2 /\
          (StatusBar_Set env (trace w2) message (currentMode vs)
             (isRecordingMacro vs) true = Return tt ->
           snd (Run env vs (Some text) w) = Return tt)
    end.
Proof.
  split; [reflexivity|]. split; [reflexivity|].
  intros text Hne Hhelp command w2.
  rewrite (Run_dispatch env vs text w Hne Hhelp). fold command.
  unfold try_catch, w2.
  destruct (Run_try env vs command (recorded command w)) as [w3 [[]|[e|s]]];
    cbn [fst snd].
  - reflexivity.
  - destruct ((code e =? E492)%N && enableNeovim env) eqn:Hcond.
    + apply andb_true_iff in Hcond as [Hc Hn]. apply N.eqb_eq in Hc.
      rewrite (Run_catch_unknown_command env vs command e w3 Hc Hn). cbn [fst snd].
      split; [reflexivity|]. intros answer Ha. rewrite Ha. reflexivity.
    + assert (Hd : code e <> E492 \/ enableNeovim env = false).
      { apply andb_false_iff in Hcond as [Hc|Hn];
          [left; apply N.eqb_neq, Hc | right; exact Hn]. }
      rewrite (Run_catch_domain_error env vs command e w3 Hd). cbn [fst snd].
      split; [reflexivity|]. intros Hs. exact Hs.
  - simpl. split; [reflexivity|].
    unfold status_updates. rewrite omap_app. simpl. apply app_nil_r.
Qed.

(** C4, as amended. For every non-empty text other than "help" and ":help",
    [Run] leaves the history one entry longer and the cursor equal to the
    new length. *)
Theorem Run_records_command (text : string) (w : World) :
  text <> "" -> strip_colon text <> "help" ->
  let w' := fst (Run env vs (Some text) w) in
  length (historyEntries (this w')) = S (length (historyEntries (this w))) /\
  _commandLineHistoryIndex (this w') = Z.of_nat (length (historyEntries (this w'))).
Proof.
  intros Hne Hhelp. cbv zeta.
  rewrite (Run_dispatch env vs text w Hne Hhelp), try_catch_Run_this.
  unfold recorded, historyEntries, CommandLineHistory.get, CommandLineHistory.add. simpl.
  unfold CommandLineHistory.add. rewrite length_app. simpl. split; [lia|reflexivity].
Qed.

(** C2, as amended. [Run] appends nothing for an absent or empty text; for
    a text that is not empty once its leading colon is removed it appends
    that text unless it is "help".  [ShowHistory] appends its seed text,
    empty or not, exactly when an editor is active. *)
Theorem history_appends (w : World) :
  historyEntries (this (fst (Run env vs None w))) = historyEntries (this w) /\
  historyEntries (this (fst (Run env vs (Some "") w))) = historyEntries (this w) /\
  (forall text, strip_colon text <> "" ->
     historyEntries (this (fst (Run env vs (Some text) w))) =
     if String.eqb (strip_colon text) "help" then historyEntries (this w)
     else historyEntries (this w) ++ [strip_colon text]) /\
  (forall seed,
     historyEntries (this (fst (ShowHistory env seed w))) =
     if activeTextEditor env then historyEntries (this w) ++ [seed]
     else historyEntries (this w)).
Proof.
  split; [reflexivity|]. split; [reflexivity|]. split.
  - intros text Hs.
    assert (Hne : text <> "") by (intros ->; apply Hs; reflexivity).
    destruct (String.eqb_spec (strip_colon text) "help") as [Hh|Hh].
    + unfold Run. rewrite (nonempty_length _ Hne), Hh. reflexivity.
    + rewrite (Run_dispatch env vs text w Hne Hh), try_catch_Run_this. reflexivity.
  - intros seed. unfold ShowHistory. destruct (activeTextEditor env); reflexivity.
Qed.

(** C9, as amended. With an active editor [ShowHistory] appends the seed
    text, presents the history most recent first and returns what the
    picker returns, [None] on cancellation; without one it returns the
    empty string, having appended and presented nothing.  The memento is
    never touched. *)
Theorem ShowHistory_spec (seed : string) (w : World) :
  let w' := fst (ShowHistory env seed w) in
  let r := snd (ShowHistory env seed w) in
  _memo (this w') = _memo (this w) /\
  if activeTextEditor env then
    let shown := rev (historyEntries (this w) ++ [seed]) in
    historyEntries (this w') = historyEntries (this w) ++ [seed] /\
    trace w' = trace w ++ [EvShowQuickPick shown] /\
    r = Return (showQuickPick env (trace w) shown)
  else
    w' = emit (EvLogDebug "No active document.") w /\ r = Return (Some "").
Proof.
  unfold ShowHistory. destruct (activeTextEditor env); simpl; repeat split.
Qed.

End DispatcherClaims.

(** ** Facts about the prompt *)

Section PromptFacts.
Variable sync : bool.

Lemma executor_open (text : string) (c : CommandLine) : is_open (executor text c).
Proof. repeat split. Qed.

Lemma executor_owner (text : string) (c : CommandLine) : owner (executor text c) = c.
Proof. reflexivity. Qed.

Lemma open_live (s : Subscription) (p : Prompt) : is_open p -> live s p = true.
Proof.
  intros (_ & Hd & Hr). unfold live. rewrite Hd, Hr.
  destruct s; reflexivity.
Qed.

Lemma updateQuickPick_frame (value : string) (p : Prompt) :
  settled (updateQuickPick value p) = settled p /\
  disposables (updateQuickPick value p) = disposables p /\
  released (updateQuickPick value p) = released p /\
  owner (updateQuickPick value p) = owner p.
Proof.
  unfold updateQuickPick.
  destruct (String.length value =? 0)%nat;
    destruct (items (input p)) as [|[[] ? ?] ?]; repeat split.
Qed.

Lemma deliver_nonterminal (ev : WidgetEvent) (p : Prompt) :
  is_terminal ev = false -> is_open p ->
  is_open (deliver sync ev p) /\ owner (deliver sync ev p) = owner p.
Proof.
  intros Ht Hp. destruct ev as [value|[|item rest]|]; simpl in Ht; try discriminate.
  - simpl. rewrite (open_live _ _ Hp).
    destruct (updateQuickPick_frame value p) as (Hs & Hd & Hr & Ho).
    destruct Hp as (Hps & Hpd & Hpr).
    unfold is_open. rewrite Hs, Hd, Hr, Ho. auto.
  - simpl. rewrite (open_live _ _ Hp). auto.
Qed.

Lemma pump_settled (p : Prompt) (script : list WidgetEvent) (v : option string) :
  settled p = Some v -> pump sync p script = p.
Proof. intros H. destruct script; simpl; rewrite H; reflexivity. Qed.

Lemma pump_nil (p : Prompt) : pump sync p [] = p.
Proof. simpl. destruct (settled p); reflexivity. Qed.

Lemma pump_nonterminal (pre : list WidgetEvent) :
  existsb is_terminal pre = false ->
  forall p rest, is_open p ->
    pump sync p (pre ++ rest) = pump sync (pump sync p pre) rest /\
    is_open (pump sync p pre) /\
    owner (pump sync p pre) = owner p.
Proof.
  induction pre as [|ev pre IH]; intros Hpre p rest Hp.
  - rewrite pump_nil. repeat split; apply Hp.
  - simpl in Hpre. apply orb_false_elim in Hpre as [Hev Hpre].
    destruct (deliver_nonterminal ev p Hev Hp) as [Hq Ho].
    pose proof Hp as (Hs & _). simpl. rewrite Hs.
    destruct (IH Hpre (deliver sync ev p) rest Hq) as (H1 & H2 & H3).
    repeat split; try assumption; try apply H2. congruence.
Qed.

Lemma hide_open (p : Prompt) (v : option string) :
  settled p = Some v ->
  settled (hide sync p) = Some v /\
  disposables (hide sync p) = disposables p /\
  released (hide sync p) = released p /\
  owner (hide sync p) = owner p.
Proof.
  intros Hs. unfold hide.
  match goal with |- context [if ?b then _ else _] => destruct b end.
  - unfold hide_listener, resolve. simpl. rewrite Hs. simpl. auto.
  - simpl. auto.
Qed.

(** The selection listener on a selection that carries an item. *)
Lemma selection_listener_spec (item : CommandItem) (rest : list CommandItem) (p : Prompt) :
  settled p = None ->
  let q := selection_listener sync (item :: rest) p in
  settled q = Some (Some (label item)) /\
  disposables q = disposables p /\
  released q = released p /\
  _memo (owner q) =
    (if stores item (owner p)
     then (fun memo => Memento.update memo VIM_HISTORY_KEY
                         (label item :: Memento.get memo VIM_HISTORY_KEY []))
            <$> _memo (owner p)
     else _memo (owner p)).
Proof.
  intros Hs. cbv zeta. unfold selection_listener, stores.
  assert (Hr : settled (resolve (Some (label item)) p) = Some (Some (label item))).
  { unfold resolve. rewrite Hs. reflexivity. }
  destruct (hide_open _ _ Hr) as (H1 & H2 & H3 & H4).
  assert (Hro : owner (resolve (Some (label item)) p) = owner p).
  { unfold resolve. rewrite Hs. reflexivity. }
  assert (Hrd : disposables (resolve (Some (label item)) p) = disposables p).
  { unfold resolve. rewrite Hs. reflexivity. }
  assert (Hrr : released (resolve (Some (label item)) p) = released p).
  { unfold resolve. rewrite Hs. reflexivity. }
  destruct (type item).
  - destruct (String.prefix " " (label item)); simpl.
    + rewrite H1, H2, H3, H4. repeat split; congruence.
    + rewrite H4, Hro. destruct (_memo (owner p)) as [memo|] eqn:Hm; simpl.
      * rewrite H1, H2, H3. repeat split; congruence.
      * rewrite H1, H2, H3, H4, Hro. repeat split; congruence.
  - rewrite H1, H2, H3, H4. repeat split; congruence.
Qed.

Lemma deliver_terminal (ev : WidgetEvent) (p : Prompt) :
  is_terminal ev = true -> is_open p ->
  (exists v, settled (deliver sync ev p) = Some v) /\
  disposables (deliver sync ev p) = disposables p /\
  released (deliver sync ev p) = released p.
Proof.
  intros Ht Hp. pose proof Hp as (Hs & _).
  destruct ev as [value|[|item rest]|]; simpl in Ht; try discriminate.
  - simpl. rewrite (open_live _ _ Hp).
    destruct (selection_listener_spec item rest p Hs) as (H1 & H2 & H3 & _).
    split; [eauto | split; assumption].
  - simpl. rewrite (open_live _ _ Hp).
    unfold hide_listener, resolve. rewrite Hs. simpl. eauto.
Qed.

Lemma pump_terminal (script : list WidgetEvent) :
  existsb is_terminal script = true ->
  forall p, is_open p ->
    (exists v, settled (pump sync p script) = Some v) /\
    disposables (pump sync p script) = disposables p /\
    released (pump sync p script) = released p.
Proof.
  induction script as [|ev script IH]; intros Hex p Hp; [discriminate|].
  pose proof Hp as (Hs & _). simpl. rewrite Hs.
  destruct (is_terminal ev) eqn:Hev.
  - destruct (deliver_terminal ev p Hev Hp) as ([v Hv] & Hd & Hr).
    rewrite (pump_settled _ _ _ Hv). eauto.
  - simpl in Hex. rewrite Hev in Hex. simpl in Hex.
    destruct (deliver_nonterminal ev p Hev Hp) as [Hq _].
    destruct (IH Hex _ Hq) as (Hv & Hd & Hr).
    destruct Hq as (_ & Hqd & Hqr). destruct Hp as (_ & Hpd & Hpr).
    split; [exact Hv | split; congruence].
Qed.

(** C8. Whichever terminal event ends an invocation of the prompt, the
    call returns, the three subscriptions it registered are those held in
    [disposables], and [dispose()] has been called on each of them exactly
    once. *)
Theorem subscriptions_released_once (text : string) (c : CommandLine)
    (script : list WidgetEvent) :
  existsb is_terminal script = true ->
  exists value st,
    promptForCommand sync text c script = Some (value, st) /\
    disposables st = [onDidChangeValue; onDidChangeSelection; onDidHide] /\
    forall s, count_occ Subscription_eq_dec (released st) s = 1.
Proof.
  intros Hex.
  destruct (pump_terminal script Hex _ (executor_open text c)) as ([v Hv] & Hd & Hr).
  unfold promptForCommand. rewrite Hv.
  exists v, (finally (pump sync (executor text c) script)).
  split; [reflexivity|]. unfold finally. simpl. rewrite Hd, Hr.
  split; [reflexivity|]. intros []; reflexivity.
Qed.

End PromptFacts.

Section PromptClaims.
Variable sync : bool.

Lemma cons_neq {A} (x : A) (l : list A) : x :: l <> l.
Proof. intros H. apply (f_equal length) in H. simpl in H. lia. Qed.

(** A selection that ends the prompt: the value returned and the memento
    left behind. *)
Lemma selection_ends_prompt (text : string) (c : CommandLine)
    (pre : list WidgetEvent) (item : CommandItem) (rest : list CommandItem)
    (post : list WidgetEvent) :
  existsb is_terminal pre = false ->
  exists st,
    promptForCommand sync text c (pre ++ ChangeSelection (item :: rest) :: post) =
      Some (Some (label item), st) /\
    _memo (owner st) =
      (if stores item c
       then (fun memo => Memento.update memo VIM_HISTORY_KEY
                           (label item :: Memento.get memo VIM_HISTORY_KEY []))
              <$> _memo c
       else _memo c).
Proof.
  intros Hpre.
  destruct (pump_nonterminal sync pre Hpre (executor text c)
              (ChangeSelection (item :: rest) :: post) (executor_open text c))
    as (Hsplit & Hopen & Howner).
  rewrite executor_owner in Howner.
  set (q := pump sync (executor text c) pre) in *.
  pose proof Hopen as (Hs & _).
  destruct (selection_listener_spec sync item rest q Hs) as (H1 & _ & _ & H4).
  assert (Hq : pump sync q (ChangeSelection (item :: rest) :: post) =
               selection_listener sync (item :: rest) q).
  { simpl. rewrite Hs. simpl. rewrite (open_live _ _ Hopen).
    apply (pump_settled sync _ _ _ H1). }
  unfold promptForCommand. rewrite Hsplit, Hq, H1.
  eexists. split; [reflexivity|].
  unfold finally. cbn [owner]. rewrite H4, Howner. reflexivity.
Qed.

(** C7, as amended. A selection that ends the prompt resolves it with the
    text of the selected item; the persisted history changes if and only if
    that item is the typed one, its text does not begin with a space and a
    memento has been set; the change is then exactly the text put in front
    under the history key, and a recalled item leaves the history as it was. *)
Theorem selection_persists_typed_only (text : string) (c : CommandLine)
    (pre : list WidgetEvent) (item : CommandItem) (rest : list CommandItem)
    (post : list WidgetEvent) :
  existsb is_terminal pre = false ->
  exists st,
    promptForCommand sync text c (pre ++ ChangeSelection (item :: rest) :: post) =
      Some (Some (label item), st) /\
    (persisted (owner st) <> persisted c <->
       type item = Tinput /\ String.prefix " " (label item) = false /\
       is_Some (_memo c)) /\
    persisted (owner st) =
      (if stores item c then label item :: persisted c else persisted c) /\
    _memo (owner st) =
      (if stores item c
       then (fun memo => <[VIM_HISTORY_KEY := label item :: persisted c]> memo) <$> _memo c
       else _memo c) /\
    (type item = Thistory -> persisted (owner st) = persisted c).
Proof.
  intros Hpre.
  destruct (selection_ends_prompt text c pre item rest post Hpre) as (st & Hrun & Hmemo).
  exists st. split; [exact Hrun|].
  assert (Hstores : stores item c = true <->
            type item = Tinput /\ String.prefix " " (label item) = false /\
            is_Some (_memo c)).
  { unfold stores. destruct (type item).
    - rewrite andb_true_iff, negb_true_iff, bool_decide_eq_true. tauto.
    - split; [discriminate | intros [? _]; discriminate]. }
  assert (Hpers : persisted (owner st) =
            if stores item c then label item :: persisted c else persisted c).
  { unfold persisted at 1. rewrite Hmemo.
    destruct (stores item c) eqn:Hst; [|reflexivity].
    destruct (proj1 Hstores eq_refl) as (_ & _ & [memo Hm]).
    unfold persisted. rewrite Hm. simpl.
    unfold Memento.get, Memento.update. rewrite lookup_insert_eq. reflexivity. }
  split; [|split; [exact Hpers|split]].
  - rewrite Hpers, <- Hstores. destruct (stores item c).
    + split; [reflexivity | intros _; apply cons_neq].
    + split; [intros H; contradiction H; reflexivity | discriminate].
  - rewrite Hmemo. destruct (stores item c); [|reflexivity].
    unfold persisted. destruct (_memo c); reflexivity.
  - intros Hty. rewrite Hpers. unfold stores. rewrite Hty. reflexivity.
Qed.

Lemma deliver_items_typed_only (ev : WidgetEvent) (p : Prompt) :
  typed_only (items (input p)) -> typed_only (items (input (deliver sync ev p))).
Proof.
  intros Hp.
  assert (Hres : forall v q, items (input (resolve v q)) = items (input q)).
  { intros v q. unfold resolve. destruct (settled q); reflexivity. }
  assert (Hhl : forall q, items (input (hide_listener q)) = items (input q)).
  { intros q. unfold hide_listener. simpl. apply Hres. }
  assert (Hh : forall q, items (input (hide sync q)) = items (input q)).
  { intros q. unfold hide.
    match goal with |- context [if ?b then _ else _] => destruct b end;
      [rewrite Hhl|]; reflexivity. }
  destruct ev as [value|selected|]; simpl.
  - destruct (live onDidChangeValue p); [|exact Hp].
    unfold updateQuickPick. destruct Hp as [Hall Hlen].
    destruct (String.length value =? 0)%nat;
      destruct (items (input p)) as [|[[] l d] tl] eqn:Hi; simpl;
      rewrite ?Hi; try (split; [exact Hall | exact Hlen]).
    + inversion Hall; subst. split; [assumption | simpl in Hlen; lia].
    + split; [repeat constructor | simpl; lia].
    + inversion Hall; subst. split; [constructor; [reflexivity|assumption] | exact Hlen].
    + inversion Hall; subst. discriminate.
  - destruct (live onDidChangeSelection p); [|exact Hp].
    unfold selection_listener. destruct selected as [|item rest]; [exact Hp|].
    destruct (type item).
    + destruct (negb (String.prefix " " (label item))).
      * destruct (_memo (owner (hide sync (resolve (Some (label item)) p))));
          simpl; rewrite Hh, Hres; exact Hp.
      * rewrite Hh, Hres; exact Hp.
    + rewrite Hh, Hres; exact Hp.
  - destruct (live onDidHide p); [|exact Hp]. rewrite Hhl. exact Hp.
Qed.

Lemma pump_items_typed_only (script : list WidgetEvent) :
  forall p, typed_only (items (input p)) ->
    typed_only (items (input (pump sync p script))).
Proof.
  induction script as [|ev script IH]; intros p Hp.
  - rewrite pump_nil. exact Hp.
  - simpl. destruct (settled p); [exact Hp|].
    apply IH, deliver_items_typed_only, Hp.
Qed.

(** C10. When no memento has been set, the list the prompt opens with is
    the typed item alone, or empty for an empty seed; whatever the widget
    reports, the displayed list never holds a recalled entry; and selecting
    a typed item resolves the prompt with its text while the memento stays
    unset, so that nothing is written. *)
Theorem prompt_without_memo (text : string) (c : CommandLine)
    (pre : list WidgetEvent) :
  _memo c = None ->
  items (input (executor text c)) =
    (if (String.length text =? 0)%nat then []
     else [{| type := Tinput; label := text; description := Some "(input" |}]) /\
  typed_only (items (input (pump sync (executor text c) pre))) /\
  (existsb is_terminal pre = false ->
   forall item rest post, type item = Tinput ->
   exists st,
     promptForCommand sync text c (pre ++ ChangeSelection (item :: rest) :: post) =
       Some (Some (label item), st) /\
     _memo (owner st) = None /\ persisted (owner st) = []).
Proof.
  intros Hmemo.
  assert (Hinit : items (input (executor text c)) =
            if (String.length text =? 0)%nat then []
            else [{| type := Tinput; label := text; description := Some "(input" |}]).
  { unfold executor. simpl. rewrite Hmemo. apply app_nil_r. }
  split; [exact Hinit|]. split.
  - apply pump_items_typed_only. rewrite Hinit.
    destruct (String.length text =? 0)%nat; split; simpl; repeat constructor.
  - intros Hpre item rest post Hty.
    destruct (selection_ends_prompt text c pre item rest post Hpre) as (st & Hrun & Hm).
    exists st. split; [exact Hrun|].
    assert (Hnone : _memo (owner st) = None).
    { rewrite Hm, Hmemo. destruct (stores item c); reflexivity. }
    split; [exact Hnone|]. unfold persisted. rewrite Hnone. reflexivity.
Qed.

End PromptClaims.

(** ** The claims at concrete inputs *)

(** C1. The parser rejects "foo" with the unknown-command error E492 while
    the fallback is enabled: the engine is called once with "foo" and answers
    "from nvim", and [Run] makes no status update, so the answer is never
    shown. *)
Theorem Run_unknown_command_drops_fallback_text :
  let env := rejecting_env true (ExVimError E492_error) (Return "from nvim") in
  let w' := fst (Run env normal_state (Some "foo") fresh_world) in
  domain_failure env "foo" (trace fresh_world) E492_error /\
  nvim_calls (trace w') = ["foo"] /\
  nvim_run env [EvParse "foo"] "foo" = Return "from nvim" /\
  status_updates (trace w') = [] /\
  snd (Run env normal_state (Some "foo") fresh_world) = Return tt.
Proof. repeat split. Qed.

(** An empty seed is appended by [ShowHistory], and the non-empty text "help"
    is not appended by [Run]. *)
Lemma history_append_not_iff_nonempty :
  let env := accepting_env false false true (Return tt) (Return "") None in
  historyEntries (this (fst (ShowHistory env "" fresh_world))) = [""] /\
  historyEntries (this (fst (Run env normal_state (Some "help") fresh_world))) = [].
Proof. split; reflexivity. Qed.

Lemma history_appends_witness :
  strip_colon ":w" <> "" /\
  historyEntries
    (this (fst (Run (accepting_env false false true (Return tt) (Return "") None)
                    normal_state (Some ":w") fresh_world))) = ["w"].
Proof.
  split; [discriminate|].
  exact (proj1 (proj2 (proj2
           (history_appends (accepting_env false false true (Return tt) (Return "") None)
              normal_state fresh_world))) ":w" ltac:(discriminate)).
Defined.

(** The handler re-routes to the fallback engine, the engine throws: the
    exception leaves [Run] and nothing is logged. *)
Lemma Run_lets_handler_failure_escape :
  let env := rejecting_env true (ExVimError E492_error) (Throw (ExOther "boom")) in
  snd (Run env normal_state (Some "foo") fresh_world) = Throw (ExOther "boom") /\
  log_errors (trace (fst (Run env normal_state (Some "foo") fresh_world))) = [].
Proof. split; reflexivity. Qed.

Lemma Run_catches_failures_of_try_witness :
  ":foo" <> "" /\ strip_colon ":foo" <> "help" /\
  Run (rejecting_env true (ExOther "TypeError") (Return "")) normal_state
      (Some ":foo") fresh_world =
  ({| this := {| _history := ["foo"]; _memo := None;
                 _commandLineHistoryIndex := 1; previousMode := Normal |};
      trace := [EvParse "foo"; EvLogError "Error executing cmd=foo. err=TypeError."] |},
   Return tt) /\
  snd (Run (rejecting_env true (ExVimError E492_error) (Return "from nvim")) normal_state
           (Some ":foo") fresh_world) = Return tt /\
  snd (Run (rejecting_env true (ExVimError E37_error) (Return "")) normal_state
           (Some ":foo") fresh_world) = Return tt.
Proof.
  assert (H1 : ":foo" <> "") by discriminate.
  assert (H2 : strip_colon ":foo" <> "help") by discriminate.
  split; [exact H1|]. split; [exact H2|]. split; [|split].
  - exact (proj1 (proj2 (proj2 (Run_catches_failures_of_try
                    (rejecting_env true (ExOther "TypeError") (Return "")) normal_state
                    fresh_world)) ":foo" H1 H2)).
  - pose proof (proj2 (proj2 (Run_catches_failures_of_try
                    (rejecting_env true (ExVimError E492_error) (Return "from nvim"))
                    normal_state fresh_world)) ":foo" H1 H2) as H.
    cbv zeta in H. cbn in H. destruct H as [_ H]. exact (H "from nvim" eq_refl).
  - pose proof (proj2 (proj2 (Run_catches_failures_of_try
                    (rejecting_env true (ExVimError E37_error) (Return ""))
                    normal_state fresh_world)) ":foo" H1 H2) as H.
    cbv zeta in H. cbn in H. destruct H as [_ H]. exact (H eq_refl).
Defined.

(** "help" is a non-empty text and [Run] leaves the history empty. *)
Lemma Run_help_records_nothing :
  let env := accepting_env false false true (Return tt) (Return "") None in
  let w' := fst (Run env normal_state (Some "help") fresh_world) in
  "help" <> "" /\
  length (historyEntries (this w')) <> S (length (historyEntries (this fresh_world))).
Proof. split; discriminate. Qed.

Lemma Run_records_command_witness :
  ":wq" <> "" /\ strip_colon ":wq" <> "help" /\
  let w' := fst (Run (accepting_env false false true (Return tt) (Return "") None)
                     normal_state (Some ":wq") fresh_world) in
  length (historyEntries (this w')) = 1 /\
  _commandLineHistoryIndex (this w') = 1%Z.
Proof.
  split; [discriminate|]. split; [discriminate|].
  exact (Run_records_command
           (accepting_env false false true (Return tt) (Return "") None) normal_state
           ":wq" fresh_world ltac:(discriminate) ltac:(discriminate)).
Defined.

Lemma Run_reports_domain_error_witness :
  let env := rejecting_env true (ExVimError E37_error) (Return "") in
  ":wq" <> "" /\ strip_colon ":wq" <> "help" /\
  domain_failure env (strip_colon ":wq") (trace fresh_world) E37_error /\
  (code E37_error <> E492 \/ enableNeovim env = false) /\
  status_updates (trace (fst (Run env normal_state (Some ":wq") fresh_world))) =
    ["E37: No write since last change. wq"] /\
  nvim_calls (trace (fst (Run env normal_state (Some ":wq") fresh_world))) = [].
Proof.
  intros env.
  assert (H1 : ":wq" <> "") by discriminate.
  assert (H2 : strip_colon ":wq" <> "help") by discriminate.
  assert (H3 : domain_failure env (strip_colon ":wq") (trace fresh_world) E37_error)
    by reflexivity.
  assert (H4 : code E37_error <> E492 \/ enableNeovim env = false)
    by (left; discriminate).
  repeat (split; [assumption|]).
  destruct (Run_reports_domain_error env normal_state ":wq" fresh_world E37_error
              H1 H2 H3 H4) as (w2 & Htry & _ & Hstatus & Hnvim).
  split; [exact Hstatus|].
  rewrite Hnvim. injection Htry as <-. reflexivity.
Defined.

(** Without an active editor the seed "x" is not appended and the value
    returned is the empty string, not the absent value of a cancellation. *)
Lemma ShowHistory_without_editor :
  let env := accepting_env false false false (Return tt) (Return "") None in
  historyEntries (this (fst (ShowHistory env "x" fresh_world))) <>
    historyEntries (this fresh_world) ++ ["x"] /\
  snd (ShowHistory env "x" fresh_world) = Return (Some "") /\
  snd (ShowHistory env "x" fresh_world) <> Return None.
Proof. repeat split; discriminate. Qed.

Example prompt_opens_with_history :
  items (input (executor "e" remembering)) =
  [{| type := Tinput; label := "e"; description := Some "(input" |};
   recalled "w" "0"; recalled "q" "1"].
Proof. vm_compute. reflexivity. Qed.

Example prompt_follows_typing :
  items (input (pump false (executor "e" remembering)
                  [ChangeValue "ed"; ChangeValue ""; ChangeValue "x"])) =
  [typed "x"; recalled "w" "0"; recalled "q" "1"].
Proof. vm_compute. reflexivity. Qed.

Example prompt_dismissed :
  fst <$> promptForCommand false "x" remembering [ChangeValue "xy"; Hide] = Some None.
Proof. vm_compute. reflexivity. Qed.

Example prompt_never_settled :
  promptForCommand false "x" remembering [ChangeValue "xy"; ChangeSelection []] = None.
Proof. vm_compute. reflexivity. Qed.

(** No memento has been set: the typed item "x" is selected, its text does
    not begin with a space, and the persisted history is as it was. *)
Lemma typed_selection_without_memo_not_stored :
  let item := {| type := Tinput; label := "x"; description := Some "(input" |} in
  type item = Tinput /\ String.prefix " " (label item) = false /\
  exists st,
    promptForCommand false "x" new_CommandLine [ChangeSelection [item]] =
      Some (Some "x", st) /\
    persisted (owner st) = persisted new_CommandLine.
Proof.
  split; [reflexivity|]. split; [reflexivity|].
  eexists. split; [vm_compute; reflexivity | reflexivity].
Qed.

Lemma selection_persists_typed_only_witness :
  existsb is_terminal [ChangeValue "wq"] = false /\
  exists st,
    promptForCommand false "w" remembering
      [ChangeValue "wq"; ChangeSelection [typed "wq"]; Hide] = Some (Some "wq", st) /\
    persisted (owner st) = ["wq"; "w"; "q"].
Proof.
  split; [reflexivity|].
  destruct (selection_persists_typed_only false "w" remembering [ChangeValue "wq"]
              (typed "wq") [] [Hide] eq_refl) as (st & Hrun & _ & Hp & _).
  exists st. split; [exact Hrun|]. rewrite Hp. vm_compute. reflexivity.
Defined.

Lemma subscriptions_released_once_witness :
  existsb is_terminal [ChangeValue "wq"; Hide] = true /\
  exists value st,
    promptForCommand true "w" remembering [ChangeValue "wq"; Hide] = Some (value, st) /\
    disposables st = [onDidChangeValue; onDidChangeSelection; onDidHide] /\
    forall s, count_occ Subscription_eq_dec (released st) s = 1.
Proof.
  split; [reflexivity|].
  exact (subscriptions_released_once true "w" remembering [ChangeValue "wq"; Hide] eq_refl).
Defined.

Lemma prompt_without_memo_witness :
  _memo new_CommandLine = None /\
  existsb is_terminal [ChangeValue "wq"] = false /\
  type (typed "wq") = Tinput /\
  items (input (executor "w" new_CommandLine)) =
    [{| type := Tinput; label := "w"; description := Some "(input" |}] /\
  exists st,
    promptForCommand false "w" new_CommandLine
      [ChangeValue "wq"; ChangeSelection [typed "wq"]] = Some (Some "wq", st) /\
    _memo (owner st) = None /\ persisted (owner st) = [].
Proof.
  split; [reflexivity|]. split; [reflexivity|]. split; [reflexivity|].
  destruct (prompt_without_memo false "w" new_CommandLine [ChangeValue "wq"] eq_refl)
    as (Hinit & _ & Hsel).
  split; [exact Hinit|].
  exact (Hsel eq_refl (typed "wq") [] [] eq_refl).
Defined.

Example typed_command_is_stored_then_run :
  PromptAndRun (accepting_env false false true (Return tt) (Return "") None) normal_state
    false "w" [ChangeValue "wq"; ChangeSelection [typed "wq"]]
    {| this := remembering; trace := [] |} =
  Some ({| this := {| _history := ["wq"];
                      _memo := Some {[ VIM_HISTORY_KEY := ["wq"; "w"; "q"] ]};
                      _commandLineHistoryIndex := 1; previousMode := Normal |};
           trace := [EvParse "wq"; EvExecute "wq"] |}, Return tt).
Proof. vm_compute. reflexivity. Qed.

(** ** More about the dispatcher *)

Section DispatcherMore.
Variable env : Env.
Variable vs : VimState.

Lemma recordable_Some (text : string) :
  recordable (Some text) = true <-> text <> "" /\ strip_colon text <> "help".
Proof.
  unfold recordable. rewrite andb_true_iff, !negb_true_iff.
  rewrite String.eqb_neq. split.
  - intros [Hl Hh]. split; [|exact Hh]. intros ->. discriminate.
  - intros [Hne Hh]. split; [apply nonempty_length, Hne | exact Hh].
Qed.

(** [Run] on a text it does not record: nothing but, for "help", the status
    update. *)
Lemma Run_not_recordable (command : option string) (w : World) :
  recordable command = false ->
  this (fst (Run env vs command w)) = this w /\
  parser_calls (trace (fst (Run env vs command w))) = parser_calls (trace w) /\
  nvim_calls (trace (fst (Run env vs command w))) = nvim_calls (trace w) /\
  execute_calls (trace (fst (Run env vs command w))) = execute_calls (trace w) /\
  log_errors (trace (fst (Run env vs command w))) = log_errors (trace w).
Proof.
  destruct command as [text|]; [|repeat split].
  unfold recordable, Run.
  destruct (String.length text =? 0)%nat; [repeat split|].
  destruct (String.eqb (strip_colon text) "help"); [|discriminate].
  intros _. simpl.
  unfold parser_calls, nvim_calls, execute_calls, log_errors.
  rewrite !omap_app. simpl. rewrite !app_nil_r. repeat split.
Qed.

Lemma Run_this (command : option string) (w : World) :
  this (fst (Run env vs command w)) =
  match recorded_text command with
  | Some text => this (recorded text w)
  | None => this w
  end.
Proof.
  unfold recorded_text. destruct command as [text|]; [|reflexivity].
  destruct (recordable (Some text)) eqn:Hr.
  - apply recordable_Some in Hr as [Hne Hh].
    rewrite (Run_dispatch env vs text w Hne Hh). apply try_catch_Run_this.
  - apply (Run_not_recordable (Some text) w Hr).
Qed.

(** X1. Whatever the text and whatever the collaborators do, [Run] leaves
    the memento, and with it the persisted history, and [previousMode] as
    they were. *)
Theorem Run_keeps_memo (command : option string) (w : World) :
  _memo (this (fst (Run env vs command w))) = _memo (this w) /\
  persisted (this (fst (Run env vs command w))) = persisted (this w) /\
  previousMode (this (fst (Run env vs command w))) = previousMode (this w).
Proof.
  unfold persisted. rewrite Run_this.
  destruct (recorded_text command); repeat split.
Qed.

(** X2. A caller runs texts one after the other: the history ends up as it
    was, followed by the recorded texts in the order they were run, each with
    its leading colon removed; absent, empty and "help" texts leave no entry.
    If the cursor was at the end of the history before, it is at the end
    after. *)
Theorem Run_all_history (commands : list (option string)) (w : World) :
  historyEntries (this (Run_all env vs commands w)) =
    historyEntries (this w) ++ omap recorded_text commands /\
  (_commandLineHistoryIndex (this w) = Z.of_nat (length (historyEntries (this w))) ->
   _commandLineHistoryIndex (this (Run_all env vs commands w)) =
     Z.of_nat (length (historyEntries (this (Run_all env vs commands w))))).
Proof.
  revert w. induction commands as [|command commands IH]; intros w.
  - simpl. rewrite app_nil_r. split; [reflexivity | intros H; exact H].
  - change (Run_all env vs (command :: commands) w)
      with (Run_all env vs commands (fst (Run env vs command w))).
    destruct (IH (fst (Run env vs command w))) as [IHh IHc].
    pose proof (Run_this command w) as Ht. simpl omap.
    destruct (recorded_text command) as [text|]; split.
    + rewrite IHh, Ht.
      unfold recorded, historyEntries, CommandLineHistory.get, history_add,
        CommandLineHistory.add. simpl. rewrite <- app_assoc. reflexivity.
    + intros _. apply IHc. rewrite Ht. reflexivity.
    + rewrite IHh, Ht. reflexivity.
    + intros Hc. apply IHc. rewrite Ht. exact Hc.
Qed.

(** X3. The leading colon is optional: for a non-empty text that does not
    itself begin with a colon, [Run] does the same with and without the
    colon in front. *)
Theorem Run_colon_optional (text : string) (w : World) :
  text <> "" -> strip_colon text = text ->
  Run env vs (Some (String ":" text)) w = Run env vs (Some text) w.
Proof.
  intros Hne Hs. unfold Run. rewrite (nonempty_length _ Hne).
  change (strip_colon (String ":" text)) with text. rewrite Hs. reflexivity.
Qed.

End DispatcherMore.

Lemma Run_colon_optional_witness :
  "wq" <> "" /\ strip_colon "wq" = "wq" /\
  Run (accepting_env false false true (Return tt) (Return "") None) normal_state
      (Some ":wq") fresh_world =
  Run (accepting_env false false true (Return tt) (Return "") None) normal_state
      (Some "wq") fresh_world.
Proof.
  split; [discriminate|]. split; [reflexivity|].
  exact (Run_colon_optional
           (accepting_env false false true (Return tt) (Return "") None) normal_state
           "wq" fresh_world ltac:(discriminate) eq_refl).
Defined.

Lemma Run_all_history_witness :
  let w := Run_all (accepting_env false false true (Return tt) (Return "") None)
             normal_state [Some ":w"; None; Some "help"; Some ""; Some "q"] fresh_world in
  _commandLineHistoryIndex (this fresh_world) =
    Z.of_nat (length (historyEntries (this fresh_world))) /\
  historyEntries (this w) = ["w"; "q"] /\
  _commandLineHistoryIndex (this w) = Z.of_nat (length (historyEntries (this w))).
Proof.
  intros w. split; [reflexivity|].
  destruct (Run_all_history (accepting_env false false true (Return tt) (Return "") None)
              normal_state [Some ":w"; None; Some "help"; Some ""; Some "q"] fresh_world)
    as [Hh Hc].
  split; [exact Hh | exact (Hc eq_refl)].
Defined.

Section DispatcherCalls.
Variable env : Env.
Variable vs : VimState.

Lemma nvim_calls_emit (ev : Event) (w : World) :
  nvim_calls (trace (emit ev w)) =
  nvim_calls (trace w) ++ match ev with EvNvimRun text => [text] | _ => [] end.
Proof. unfold nvim_calls, emit. simpl. rewrite omap_app. destruct ev; reflexivity. Qed.

Lemma parser_calls_emit (ev : Event) (w : World) :
  parser_calls (trace (emit ev w)) =
  parser_calls (trace w) ++ match ev with EvParse text => [text] | _ => [] end.
Proof. unfold parser_calls, emit. simpl. rewrite omap_app. destruct ev; reflexivity. Qed.

Lemma execute_calls_emit (ev : Event) (w : World) :
  execute_calls (trace (emit ev w)) =
  execute_calls (trace w) ++ match ev with EvExecute text => [text] | _ => [] end.
Proof. unfold execute_calls, emit. simpl. rewrite omap_app. destruct ev; reflexivity. Qed.

Lemma log_errors_emit (ev : Event) (w : World) :
  log_errors (trace (emit ev w)) =
  log_errors (trace w) ++ match ev with EvLogError text => [text] | _ => [] end.
Proof. unfold log_errors, emit. simpl. rewrite omap_app. destruct ev; reflexivity. Qed.

(** Every way through the [try] block and the [catch] clause. *)
Ltac Run_paths command w :=
  unfold try_catch; rewrite Run_try_unfold; cbv zeta;
  destruct (parser_parse env (trace (recorded command w)) command) as [parsed|[err|other]];
  [ destruct (useNeovim env parsed) eqn:Huse;
    [ destruct (nvim_run env (trace (emit (EvParse command) (recorded command w))) command)
        as [answer|[err|other]];
      [ destruct (StatusBar_Set env
                    (trace (emit (EvNvimRun command)
                              (emit (EvParse command) (recorded command w))))
                    answer (currentMode vs) (isRecordingMacro vs) true) as [[]|[err|other]]
      | | ]
    | destruct (ParsedCommandLine.execute parsed
                  (trace (emit (EvParse command) (recorded command w)))) as [[]|[err|other]] ]
  | | ];
  unfold Run_catch, StatusBar_Set_error, logger_error, bind, call, ret;
  try destruct ((code err =? E492)%N && enableNeovim env) eqn:Hcond;
  try match goal with
      | |- context [nvim_run env ?tr command] => destruct (nvim_run env tr command)
      end;
  cbn [fst snd].

(** X4. [Run] calls the parser exactly once, with the text stripped of its
    leading colon, when the text is recorded, and not at all otherwise. *)
Theorem Run_parses_once (command : option string) (w : World) :
  parser_calls (trace (fst (Run env vs command w))) =
  parser_calls (trace w) ++
  match recorded_text command with Some text => [text] | None => [] end.
Proof.
  unfold recorded_text. destruct command as [text|]; [|symmetry; apply app_nil_r].
  destruct (recordable (Some text)) eqn:Hr.
  - apply recordable_Some in Hr as [Hne Hh].
    rewrite (Run_dispatch env vs text w Hne Hh).
    Run_paths (strip_colon text) w;
      rewrite ?parser_calls_emit, ?app_nil_r; reflexivity.
  - rewrite (proj1 (proj2 (Run_not_recordable env vs (Some text) w Hr))).
    symmetry; apply app_nil_r.
Qed.

(** X5. [Run] calls the fallback engine at most twice, every time with the
    stripped text, and never when the fallback is disabled or the text is
    not recorded. *)
Theorem Run_fallback_calls (command : option string) (w : World) :
  exists n,
    n <= (if enableNeovim env && recordable command then 2 else 0) /\
    nvim_calls (trace (fst (Run env vs command w))) =
    nvim_calls (trace w) ++ replicate n (default "" (recorded_text command)).
Proof.
  unfold recorded_text. destruct (recordable command) eqn:Hr.
  - destruct command as [text|]; [|discriminate].
    apply recordable_Some in Hr as [Hne Hh].
    rewrite (Run_dispatch env vs text w Hne Hh). rewrite andb_true_r.
    unfold useNeovim.
    destruct (enableNeovim env) eqn:Hen; cbn [andb].
    + Run_paths (strip_colon text) w;
        rewrite ?nvim_calls_emit, ?app_nil_r, <- ?app_assoc;
        first [ exists 0; split; [lia | symmetry; apply app_nil_r]
              | exists 1; split; [lia | reflexivity]
              | exists 2; split; [lia | reflexivity] ].
    + exists 0. split; [lia|].
      Run_paths (strip_colon text) w;
        try (unfold useNeovim in Huse; rewrite Hen in Huse; discriminate);
        try (rewrite Hen, andb_false_r in Hcond; discriminate);
        rewrite ?nvim_calls_emit, ?app_nil_r; reflexivity.
  - exists 0. rewrite andb_false_r. split; [lia|].
    rewrite (proj1 (proj2 (proj2 (Run_not_recordable env vs command w Hr)))).
    destruct command; simpl; symmetry; apply app_nil_r.
Qed.

End DispatcherCalls.

Example Run_calls_fallback_twice :
  nvim_calls
    (trace (fst (Run (accepting_env true true true (Return tt)
                        (Throw (ExVimError E492_error)) None)
                     normal_state (Some ":x") fresh_world))) = ["x"; "x"].
Proof. reflexivity. Qed.

Section DispatcherPaths.
Variable env : Env.
Variable vs : VimState.

(** X6. The parser accepts the text as a delegable command while the
    fallback is enabled, the engine answers and the status display takes the
    answer: [Run] has parsed once, called the engine once with the stripped
    text, shown its answer verbatim and returned normally; the native
    operation is not executed and nothing is logged. *)
Theorem Run_delegates (text : string) (w : World) (cmd : ParsedCommandLine.t)
    (answer : string) :
  text <> "" -> strip_colon text <> "help" ->
  let command := strip_colon text in
  parser_parse env (trace w) command = Return cmd ->
  useNeovim env cmd = true ->
  nvim_run env (trace w ++ [EvParse command]) command = Return answer ->
  StatusBar_Set env (trace w ++ [EvParse command] ++ [EvNvimRun command]) answer
    (currentMode vs) (isRecordingMacro vs) true = Return tt ->
  Run env vs (Some text) w =
  ({| this := this (recorded command w);
      trace := trace w ++ [EvParse command; EvNvimRun command;
                           EvStatusBarSet answer (currentMode vs)
                             (isRecordingMacro vs) true] |},
   Return tt).
Proof.
  intros Hne Hh command Hp Hu Hn Hs.
  rewrite (Run_dispatch env vs text w Hne Hh). fold command.
  unfold try_catch. rewrite Run_try_unfold.
  change (trace (recorded command w)) with (trace w). rewrite Hp. cbv zeta.
  rewrite Hu.
  change (trace (emit (EvParse command) (recorded command w)))
    with (trace w ++ [EvParse command]).
  rewrite Hn.
  change (trace (emit (EvNvimRun command) (emit (EvParse command) (recorded command w))))
    with ((trace w ++ [EvParse command]) ++ [EvNvimRun command]).
  rewrite <- app_assoc, Hs. unfold emit. simpl.
  rewrite <- !app_assoc. reflexivity.
Qed.

(** X7. The parser accepts the text as a command that is not delegated (not
    delegable, or the fallback disabled) and its native operation completes:
    [Run] has parsed once and executed once, and returned normally without
    any status update, engine call or log entry. *)
Theorem Run_executes_natively (text : string) (w : World) (cmd : ParsedCommandLine.t) :
  text <> "" -> strip_colon text <> "help" ->
  let command := strip_colon text in
  parser_parse env (trace w) command = Return cmd ->
  useNeovim env cmd = false ->
  ParsedCommandLine.execute cmd (trace w ++ [EvParse command]) = Return tt ->
  Run env vs (Some text) w =
  ({| this := this (recorded command w);
      trace := trace w ++ [EvParse command; EvExecute command] |},
   Return tt).
Proof.
  intros Hne Hh command Hp Hu He.
  rewrite (Run_dispatch env vs text w Hne Hh). fold command.
  unfold try_catch. rewrite Run_try_unfold.
  change (trace (recorded command w)) with (trace w). rewrite Hp. cbv zeta.
  rewrite Hu.
  change (trace (emit (EvParse command) (recorded command w)))
    with (trace w ++ [EvParse command]).
  rewrite He. unfold emit. simpl. rewrite <- !app_assoc. reflexivity.
Qed.

(** X8. With an active editor [ShowHistory] presents the seed text first,
    then the earlier history from the most recent entry back, and runs nothing:
    the picker is its only call.  It does not move the cursor: a cursor that
    was one past the last entry now points at the appended seed. *)
Theorem ShowHistory_presents_seed_first (seed : string) (w : World) :
  activeTextEditor env = true ->
  let w' := fst (ShowHistory env seed w) in
  trace w' = trace w ++ [EvShowQuickPick (seed :: rev (historyEntries (this w)))] /\
  _commandLineHistoryIndex (this w') = _commandLineHistoryIndex (this w) /\
  (_commandLineHistoryIndex (this w) = Z.of_nat (length (historyEntries (this w))) ->
   historyEntries (this w') !! Z.to_nat (_commandLineHistoryIndex (this w')) = Some seed).
Proof.
  intros Ha. unfold ShowHistory. rewrite Ha. simpl.
  unfold historyEntries, CommandLineHistory.get, CommandLineHistory.add.
  rewrite rev_app_distr. simpl. repeat split.
  intros ->. rewrite Nat2Z.id. apply list_lookup_middle. reflexivity.
Qed.

End DispatcherPaths.

Lemma Run_delegates_witness :
  let env := accepting_env true true true (Return tt) (Return "3 lines yanked") None in
  ":yank" <> "" /\ strip_colon ":yank" <> "help" /\
  Run env normal_state (Some ":yank") fresh_world =
  ({| this := {| _history := ["yank"]; _memo := None;
                 _commandLineHistoryIndex := 1; previousMode := Normal |};
      trace := [EvParse "yank"; EvNvimRun "yank";
                EvStatusBarSet "3 lines yanked" Normal false true] |},
   Return tt).
Proof.
  intros env. split; [discriminate|]. split; [discriminate|].
  exact (Run_delegates env normal_state ":yank" fresh_world
           {| ParsedCommandLine.command := Some {| neovimCapable := true |};
              ParsedCommandLine.execute := fun _ => Return tt |}
           "3 lines yanked" ltac:(discriminate) ltac:(discriminate)
           eq_refl eq_refl eq_refl eq_refl).
Defined.

Lemma Run_executes_natively_witness :
  let env := accepting_env true false true (Return tt) (Return "unused") None in
  ":w" <> "" /\ strip_colon ":w" <> "help" /\
  Run env normal_state (Some ":w") fresh_world =
  ({| this := {| _history := ["w"]; _memo := None;
                 _commandLineHistoryIndex := 1; previousMode := Normal |};
      trace := [EvParse "w"; EvExecute "w"] |},
   Return tt).
Proof.
  intros env. split; [discriminate|]. split; [discriminate|].
  exact (Run_executes_natively env normal_state ":w" fresh_world
           {| ParsedCommandLine.command := Some {| neovimCapable := false |};
              ParsedCommandLine.execute := fun _ => Return tt |}
           ltac:(discriminate) ltac:(discriminate) eq_refl eq_refl eq_refl).
Defined.

Lemma ShowHistory_presents_seed_first_witness :
  let env := accepting_env false false true (Return tt) (Return "") (Some "w") in
  let w := {| this := {| _history := ["w"; "q"]; _memo := None;
                         _commandLineHistoryIndex := 2; previousMode := Normal |};
              trace := [] |} in
  activeTextEditor env = true /\
  trace (fst (ShowHistory env "e" w)) = [EvShowQuickPick ["e"; "q"; "w"]] /\
  _commandLineHistoryIndex (this (fst (ShowHistory env "e" w))) = 2%Z /\
  historyEntries (this (fst (ShowHistory env "e" w))) !! 2 = Some "e".
Proof.
  intros env w. split; [reflexivity|].
  destruct (ShowHistory_presents_seed_first env "e" w eq_refl) as (Ht & Hc & Hl).
  split; [exact Ht|]. split; [exact Hc|]. exact (Hl eq_refl).
Defined.

(** ** More about the prompt *)

Section PromptMore.
Variable sync : bool.

Lemma recalled_items_history (c : CommandLine) :
  Forall (fun i => type i = Thistory) (recalled_items c).
Proof.
  unfold recalled_items. destruct (_memo c) as [memo|]; [|constructor].
  generalize (Memento.get memo VIM_HISTORY_KEY []). intros l.
  apply Forall_forall. intros x Hx.
  apply list_elem_of_lookup in Hx as [i Hi].
  rewrite list_lookup_imap in Hi.
  destruct (l !! i); simpl in Hi; [|discriminate].
  injection Hi as <-. reflexivity.
Qed.

Lemma executor_items (text : string) (c : CommandLine) :
  items (input (executor text c)) =
  (if (String.length text =? 0)%nat then []
   else [{| type := Tinput; label := text; description := Some "(input" |}]) ++
  recalled_items c.
Proof. reflexivity. Qed.

(** X9. The prompt opens with the seed text, when there is one, as the typed
    item, followed by the persisted history in stored order, every persisted
    command shown as a recalled item numbered by its position. *)
Theorem prompt_opens_with_seed_and_history (text : string) (c : CommandLine) :
  let shown := items (input (executor text c)) in
  let seed := if (String.length text =? 0)%nat then [] else [text] in
  map label shown = seed ++ persisted c /\
  take (length seed) shown =
    (if (String.length text =? 0)%nat then []
     else [{| type := Tinput; label := text; description := Some "(input" |}]) /\
  forall i cmd, persisted c !! i = Some cmd ->
    shown !! (length seed + i) =
    Some {| type := Thistory; label := cmd;
            description :=
              Some ("(history item " +:+ NilZero.string_of_uint (Nat.to_uint i) +:+ ")") |}.
Proof.
  cbv zeta. rewrite executor_items.
  assert (Hr : map label (recalled_items c) = persisted c /\
               forall i cmd, persisted c !! i = Some cmd ->
                 recalled_items c !! i =
                 Some {| type := Thistory; label := cmd;
                         description :=
                           Some ("(history item " +:+
                                 NilZero.string_of_uint (Nat.to_uint i) +:+ ")") |}).
  { unfold recalled_items, persisted.
    destruct (_memo c) as [memo|]; [|split; [reflexivity | discriminate]].
    generalize (Memento.get memo VIM_HISTORY_KEY []). intros l. split.
    - apply list_eq. intros i. rewrite list_lookup_fmap, list_lookup_imap.
      destruct (l !! i); reflexivity.
    - intros i cmd Hi. rewrite list_lookup_imap, Hi. reflexivity. }
  destruct Hr as (Hl & Hi).
  destruct (String.length text =? 0)%nat; simpl.
  - split; [exact Hl|]. split; [apply take_0 | exact Hi].
  - rewrite Hl. split; [reflexivity|]. split; [rewrite take_0; reflexivity | exact Hi].
Qed.

Lemma updateQuickPick_items (value : string) (c : CommandLine) (p : Prompt) :
  on_display c p ->
  items (input (updateQuickPick value p)) =
  (if (String.length value =? 0)%nat then [] else [typed value]) ++ recalled_items c.
Proof.
  intros (head & Hi & Hall & Hlen).
  pose proof (recalled_items_history c) as Hrec.
  unfold updateQuickPick. rewrite Hi.
  destruct head as [|[ty l d] [|? ?]]; simpl in Hlen; try lia.
  - simpl. destruct (recalled_items c) as [|[[] l d] tl] eqn:Hr.
    + destruct (String.length value =? 0)%nat; [exact Hi | reflexivity].
    + inversion Hrec; subst. discriminate.
    + destruct (String.length value =? 0)%nat; [rewrite Hi; reflexivity | reflexivity].
  - inversion Hall as [|? ? Hty _]; subst. simpl in Hty. subst ty. simpl.
    destruct (String.length value =? 0)%nat; reflexivity.
Qed.

Lemma deliver_on_display (c : CommandLine) (ev : WidgetEvent) (p : Prompt) :
  on_display c p -> on_display c (deliver sync ev p).
Proof.
  intros Hp.
  assert (Hres : forall v q, items (input (resolve v q)) = items (input q)).
  { intros v q. unfold resolve. destruct (settled q); reflexivity. }
  assert (Hhl : forall q, items (input (hide_listener q)) = items (input q)).
  { intros q. unfold hide_listener. simpl. apply Hres. }
  assert (Hh : forall q, items (input (hide sync q)) = items (input q)).
  { intros q. unfold hide.
    match goal with |- context [if ?b then _ else _] => destruct b end;
      [rewrite Hhl|]; reflexivity. }
  assert (Hkeep : forall q, items (input q) = items (input p) -> on_display c q).
  { intros q Hq. destruct Hp as (head & Hi & Ht). exists head. rewrite Hq. auto. }
  destruct ev as [value|selected|]; simpl.
  - destruct (live onDidChangeValue p); [|exact Hp].
    eexists. split; [apply (updateQuickPick_items value c p Hp)|].
    destruct (String.length value =? 0)%nat; split; simpl; repeat constructor.
  - destruct (live onDidChangeSelection p); [|exact Hp].
    unfold selection_listener. destruct selected as [|item rest]; [exact Hp|].
    apply Hkeep.
    destruct (type item); [|rewrite Hh; apply Hres].
    destruct (negb (String.prefix " " (label item))); [|rewrite Hh; apply Hres].
    destruct (_memo (owner (hide sync (resolve (Some (label item)) p))));
      simpl; rewrite Hh; apply Hres.
  - destruct (live onDidHide p); [|exact Hp]. apply Hkeep, Hhl.
Qed.

Lemma pump_on_display (c : CommandLine) (script : list WidgetEvent) :
  forall p, on_display c p -> on_display c (pump sync p script).
Proof.
  induction script as [|ev script IH]; intros p Hp.
  - rewrite pump_nil. exact Hp.
  - simpl. destruct (settled p); [exact Hp|].
    apply IH, deliver_on_display, Hp.
Qed.

Lemma executor_on_display (text : string) (c : CommandLine) :
  on_display c (executor text c).
Proof.
  eexists. split; [apply executor_items|].
  destruct (String.length text =? 0)%nat; split; simpl; repeat constructor.
Qed.

(** X10. Whatever the widget reports, the displayed list is at most one
    typed item followed by the recalled items exactly as they were built when
    the prompt opened: recalled items are never dropped, duplicated or
    reordered, and a typed item is only ever at the head. *)
Theorem recalled_items_never_change (text : string) (c : CommandLine)
    (script : list WidgetEvent) :
  exists head,
    items (input (pump sync (executor text c) script)) = head ++ recalled_items c /\
    Forall (fun i => type i = Tinput) head /\ length head <= 1 /\
    filter (fun i => type i = Thistory) (items (input (pump sync (executor text c) script))) =
      recalled_items c.
Proof.
  destruct (pump_on_display c script _ (executor_on_display text c))
    as (head & Hi & Hall & Hlen).
  exists head. repeat split; try assumption.
  rewrite Hi, filter_app.
  assert (Hh : filter (fun i => type i = Thistory) head = []).
  { clear Hi Hlen. induction Hall as [|x l Hx _ IH]; [reflexivity|].
    rewrite filter_cons_False by congruence. exact IH. }
  rewrite Hh. simpl. clear Hi.
  pose proof (recalled_items_history c) as Hrec.
  induction Hrec as [|x l Hx _ IH]; [reflexivity|].
  rewrite filter_cons_True by exact Hx. f_equal. exact IH.
Qed.

(** X11. After a change of the value, the displayed list is the typed item
    carrying the new value, or no typed item when the value is empty,
    followed by the recalled items; what was typed before leaves no trace. *)
Theorem typed_item_follows_value (text : string) (c : CommandLine)
    (pre : list WidgetEvent) (value : string) :
  existsb is_terminal pre = false ->
  items (input (pump sync (executor text c) (pre ++ [ChangeValue value]))) =
  (if (String.length value =? 0)%nat then [] else [typed value]) ++ recalled_items c.
Proof.
  intros Hpre.
  destruct (pump_nonterminal sync pre Hpre (executor text c) [ChangeValue value]
              (executor_open text c)) as (Hsplit & Hopen & _).
  rewrite Hsplit. set (q := pump sync (executor text c) pre) in *.
  pose proof Hopen as (Hs & _). simpl. rewrite Hs. simpl.
  rewrite (open_live _ _ Hopen).
  destruct (settled (updateQuickPick value q)); apply updateQuickPick_items;
    apply pump_on_display, executor_on_display.
Qed.

End PromptMore.

Section PromptEnds.
Variable sync : bool.

Lemma terminal_split (script : list WidgetEvent) :
  existsb is_terminal script = true ->
  exists pre ev post,
    script = pre ++ ev :: post /\ existsb is_terminal pre = false /\ is_terminal ev = true.
Proof.
  induction script as [|ev script IH]; [discriminate|].
  simpl. destruct (is_terminal ev) eqn:Hev.
  - intros _. exists [], ev, script. repeat split. exact Hev.
  - simpl. intros H. destruct (IH H) as (pre & ev' & post & -> & Hpre & Hev').
    exists (ev :: pre), ev', post. simpl. rewrite Hev, Hpre. repeat split. exact Hev'.
Qed.

(** The prompt up to and including its first terminal event. *)
Lemma pump_first_terminal (text : string) (c : CommandLine)
    (pre : list WidgetEvent) (ev : WidgetEvent) (post : list WidgetEvent) :
  existsb is_terminal pre = false -> is_terminal ev = true ->
  let q := pump sync (executor text c) pre in
  is_open q /\ owner q = c /\
  pump sync (executor text c) (pre ++ ev :: post) = deliver sync ev q /\
  exists v, settled (deliver sync ev q) = Some v.
Proof.
  intros Hpre Hev q.
  destruct (pump_nonterminal sync pre Hpre (executor text c) (ev :: post)
              (executor_open text c)) as (Hsplit & Hopen & Howner).
  fold q in Hsplit, Hopen, Howner.
  destruct (deliver_terminal sync ev q Hev Hopen) as ([v Hv] & _ & _).
  repeat split; try apply Hopen; [exact Howner | | eauto].
  rewrite Hsplit. pose proof Hopen as (Hs & _). simpl. rewrite Hs.
  apply (pump_settled sync _ _ _ Hv).
Qed.

Lemma dismissal_ends_prompt (text : string) (c : CommandLine)
    (pre post : list WidgetEvent) :
  existsb is_terminal pre = false ->
  exists st,
    promptForCommand sync text c (pre ++ Hide :: post) = Some (None, st) /\ owner st = c.
Proof.
  intros Hpre. unfold promptForCommand.
  destruct (pump_first_terminal text c pre Hide post Hpre eq_refl)
    as (Hopen & Howner & Hpump & _).
  rewrite Hpump. unfold deliver. rewrite (open_live _ _ Hopen).
  pose proof Hopen as (Hs & _).
  unfold hide_listener, resolve. rewrite Hs. cbn [settled set_input].
  eexists. split; [reflexivity | exact Howner].
Qed.

Lemma prompt_returned_terminal (text : string) (c : CommandLine)
    (script : list WidgetEvent) :
  is_Some (promptForCommand sync text c script) -> existsb is_terminal script = true.
Proof.
  unfold promptForCommand. intros Hsome.
  destruct (existsb is_terminal script) eqn:Hex; [reflexivity|].
  destruct (pump_nonterminal sync script Hex (executor text c) [] (executor_open text c))
    as (_ & (Hs & _) & _).
  rewrite Hs in Hsome. destruct Hsome as [? ?]. discriminate.
Qed.

(** X12. The prompt returns exactly when the widget reports a selection
    carrying an item or a dismissal: changes of the value and empty
    selections never settle it. *)
Theorem prompt_returns_iff_terminal (text : string) (c : CommandLine)
    (script : list WidgetEvent) :
  is_Some (promptForCommand sync text c script) <-> existsb is_terminal script = true.
Proof.
  split; [apply prompt_returned_terminal|].
  intros Hex. unfold promptForCommand.
  destruct (pump_terminal sync script Hex _ (executor_open text c)) as ([v Hv] & _).
  rewrite Hv. eauto.
Qed.

(** X13. The prompt resolves once: what the widget reports after the first
    terminal event changes neither the value returned nor the state left
    behind. *)
Theorem prompt_ignores_events_after_terminal (text : string) (c : CommandLine)
    (pre : list WidgetEvent) (ev : WidgetEvent) (post : list WidgetEvent) :
  existsb is_terminal pre = false -> is_terminal ev = true ->
  promptForCommand sync text c (pre ++ ev :: post) =
  promptForCommand sync text c (pre ++ [ev]).
Proof.
  intros Hpre Hev. unfold promptForCommand.
  destruct (pump_first_terminal text c pre ev post Hpre Hev) as (_ & _ & H1 & _).
  destruct (pump_first_terminal text c pre ev [] Hpre Hev) as (_ & _ & H2 & _).
  rewrite H1, H2. reflexivity.
Qed.

(** X14. A dismissal resolves the prompt with no command, disposes the
    widget and leaves the command line object, memento included, as it was. *)
Theorem dismissal_resolves_without_command (text : string) (c : CommandLine)
    (pre post : list WidgetEvent) :
  existsb is_terminal pre = false ->
  exists st,
    promptForCommand sync text c (pre ++ Hide :: post) = Some (None, st) /\
    owner st = c /\ disposed (input st) = true.
Proof.
  intros Hpre. unfold promptForCommand.
  destruct (pump_first_terminal text c pre Hide post Hpre eq_refl)
    as (Hopen & Howner & Hpump & _).
  rewrite Hpump. simpl. rewrite (open_live _ _ Hopen).
  pose proof Hopen as (Hs & _).
  unfold hide_listener, resolve. rewrite Hs. simpl.
  eexists. split; [reflexivity|]. simpl. split; [exact Howner | reflexivity].
Qed.

Lemma hide_owner (p : Prompt) : owner (hide sync p) = owner p.
Proof.
  unfold hide.
  match goal with |- context [if ?b then _ else _] => destruct b end; [|reflexivity].
  unfold hide_listener, resolve. simpl. destruct (settled p); reflexivity.
Qed.

Lemma resolve_owner (v : option string) (p : Prompt) : owner (resolve v p) = owner p.
Proof. unfold resolve. destruct (settled p); reflexivity. Qed.

(** What a selection does to the owner: nothing, or one update of the
    memento under the history key. *)
Lemma selection_listener_owner (item : CommandItem) (rest : list CommandItem) (p : Prompt) :
  owner (selection_listener sync (item :: rest) p) =
  if stores item (owner p) then
    {| _history := _history (owner p);
       _memo := (fun memo => <[VIM_HISTORY_KEY := label item :: persisted (owner p)]> memo)
                  <$> _memo (owner p);
       _commandLineHistoryIndex := _commandLineHistoryIndex (owner p);
       previousMode := previousMode (owner p) |}
  else owner p.
Proof.
  unfold selection_listener, stores, persisted.
  destruct (type item).
  - destruct (String.prefix " " (label item)); simpl.
    + rewrite hide_owner, resolve_owner. reflexivity.
    + rewrite !hide_owner, !resolve_owner.
      destruct (_memo (owner p)) as [memo|] eqn:Hm; simpl;
        rewrite ?hide_owner, ?resolve_owner, ?Hm; reflexivity.
  - rewrite hide_owner, resolve_owner. reflexivity.
Qed.

(** The state a selection leaves behind. *)
Lemma selection_ends_prompt_owner (text : string) (c : CommandLine)
    (pre : list WidgetEvent) (item : CommandItem) (rest : list CommandItem)
    (post : list WidgetEvent) :
  existsb is_terminal pre = false ->
  exists st,
    promptForCommand sync text c (pre ++ ChangeSelection (item :: rest) :: post) =
      Some (Some (label item), st) /\
    owner st =
      if stores item c then
        {| _history := _history c;
           _memo := (fun memo => <[VIM_HISTORY_KEY := label item :: persisted c]> memo)
                      <$> _memo c;
           _commandLineHistoryIndex := _commandLineHistoryIndex c;
           previousMode := previousMode c |}
      else c.
Proof.
  intros Hpre. unfold promptForCommand.
  destruct (pump_first_terminal text c pre (ChangeSelection (item :: rest)) post
              Hpre eq_refl) as (Hopen & Howner & Hpump & _).
  rewrite Hpump. unfold deliver. rewrite (open_live _ _ Hopen).
  pose proof Hopen as (Hs & _).
  destruct (selection_listener_spec sync item rest _ Hs) as (H1 & _).
  rewrite H1. eexists. split; [reflexivity|].
  unfold finally. cbn [owner]. rewrite selection_listener_owner, Howner. reflexivity.
Qed.

(** X15. However an invocation of the prompt ends, the session history and
    its cursor are as before, a memento is there after exactly when one was
    there before, and every key of the memento other than the history key
    holds what it held. *)
Theorem prompt_touches_history_key_only (text : string) (c : CommandLine)
    (script : list WidgetEvent) (value : option string) (st : Prompt) :
  promptForCommand sync text c script = Some (value, st) ->
  _history (owner st) = _history c /\
  _commandLineHistoryIndex (owner st) = _commandLineHistoryIndex c /\
  (is_Some (_memo (owner st)) <-> is_Some (_memo c)) /\
  forall key, key <> VIM_HISTORY_KEY ->
    (_memo (owner st) ≫= fun memo => memo !! key) =
    (_memo c ≫= fun memo => memo !! key).
Proof.
  intros Hrun.
  assert (Hex : existsb is_terminal script = true).
  { apply prompt_returned_terminal with (text := text) (c := c). rewrite Hrun. eauto. }
  destruct (terminal_split script Hex) as (pre & ev & post & -> & Hpre & Hev).
  assert (Hown : owner st = c \/
                 exists item, owner st =
                   {| _history := _history c;
                      _memo := (fun memo => <[VIM_HISTORY_KEY := label item :: persisted c]> memo)
                                 <$> _memo c;
                      _commandLineHistoryIndex := _commandLineHistoryIndex c;
                      previousMode := previousMode c |}).
  { destruct ev as [v|[|item rest]|]; try discriminate.
    - destruct (selection_ends_prompt_owner text c pre item rest post Hpre)
        as (st' & Hrun' & Ho).
      rewrite Hrun in Hrun'. injection Hrun' as _ <-.
      destruct (stores item c); [right; eauto | left; exact Ho].
    - destruct (dismissal_ends_prompt text c pre post Hpre) as (st' & Hrun' & Ho).
      rewrite Hrun in Hrun'. injection Hrun' as _ <-. left. exact Ho. }
  destruct Hown as [-> | [item ->]]; [repeat split; auto|].
  simpl. repeat split.
  - intros [m Hm]. destruct (_memo c); [eauto | discriminate].
  - intros [m Hm]. rewrite Hm. simpl. eauto.
  - intros key Hkey. destruct (_memo c) as [memo|]; [|reflexivity].
    simpl. apply lookup_insert_ne. congruence.
Qed.

End PromptEnds.

(** ** [PromptAndRun] *)

Section PromptAndRunFacts.
Variable env : Env.
Variable vs : VimState.
Variable sync : bool.

Lemma persisted_after_store (item : CommandItem) (c : CommandLine) :
  stores item c = true ->
  persisted {| _history := _history c;
               _memo := (fun memo => <[VIM_HISTORY_KEY := label item :: persisted c]> memo)
                          <$> _memo c;
               _commandLineHistoryIndex := _commandLineHistoryIndex c;
               previousMode := previousMode c |} = label item :: persisted c.
Proof.
  unfold stores. destruct (type item); [|discriminate].
  rewrite andb_true_iff, bool_decide_eq_true. intros [_ [memo Hm]].
  unfold persisted at 1. cbn [_memo]. rewrite Hm. simpl.
  unfold Memento.get. rewrite lookup_insert_eq. reflexivity.
Qed.

(** X16. Without an active editor [PromptAndRun] opens no prompt and runs
    nothing: its one effect is a debug log entry.  With one, a dismissed
    prompt leaves the whole state as it was: no history entry, no persisted
    entry, no call to the parser, the status display or the engine. *)
Theorem PromptAndRun_without_command (initialText : string) (w : World) :
  (activeTextEditor env = false ->
   forall script,
     PromptAndRun env vs sync initialText script w =
     Some (emit (EvLogDebug "No active document") w, Return tt)) /\
  (activeTextEditor env = true ->
   forall pre post, existsb is_terminal pre = false ->
     PromptAndRun env vs sync initialText (pre ++ Hide :: post) w = Some (w, Return tt)).
Proof.
  unfold PromptAndRun. split; intros Ha; rewrite Ha.
  - reflexivity.
  - intros pre post Hpre. simpl.
    destruct (dismissal_ends_prompt sync initialText (this w) pre post Hpre)
      as (st & Hrun & Ho).
    rewrite Hrun, Ho. destruct w. reflexivity.
Qed.

(** X17. With an active editor, a selection makes [PromptAndRun] run the
    text of the selected item.  The session history receives that text
    stripped of a leading colon unless it is empty or "help"; the persisted
    history receives it as typed when the item is the typed one, does not
    begin with a space and a memento is set.  The two stores are written
    independently of each other. *)
Theorem PromptAndRun_runs_selection (initialText : string) (w : World)
    (pre : list WidgetEvent) (item : CommandItem) (rest : list CommandItem)
    (post : list WidgetEvent) :
  activeTextEditor env = true ->
  existsb is_terminal pre = false ->
  exists w1,
    PromptAndRun env vs sync initialText (pre ++ ChangeSelection (item :: rest) :: post) w =
      Some (Run env vs (Some (label item)) w1) /\
    trace w1 = trace w /\
    historyEntries (this (fst (Run env vs (Some (label item)) w1))) =
      historyEntries (this w) ++
      match recorded_text (Some (label item)) with Some text => [text] | None => [] end /\
    persisted (this (fst (Run env vs (Some (label item)) w1))) =
      if stores item (this w) then label item :: persisted (this w)
      else persisted (this w).
Proof.
  intros Ha Hpre. unfold PromptAndRun. rewrite Ha. simpl negb. cbv iota.
  destruct (selection_ends_prompt_owner sync initialText (this w) pre item rest post Hpre)
    as (st & Hrun & Ho).
  rewrite Hrun. eexists. split; [reflexivity|]. split; [reflexivity|].
  assert (Hh : historyEntries (owner st) = historyEntries (this w)).
  { rewrite Ho. destruct (stores item (this w)); reflexivity. }
  assert (Hp : persisted (owner st) =
               if stores item (this w) then label item :: persisted (this w)
               else persisted (this w)).
  { rewrite Ho. destruct (stores item (this w)) eqn:Hst; [|reflexivity].
    apply persisted_after_store, Hst. }
  split.
  - rewrite Run_this. cbn [this].
    destruct (recorded_text (Some (label item))) as [text|].
    + unfold recorded. cbn [this]. unfold historyEntries in *.
      unfold history_add, CommandLineHistory.get, CommandLineHistory.add in *.
      cbn [_history]. rewrite Hh. reflexivity.
    + rewrite Hh. symmetry. apply app_nil_r.
  - rewrite <- Hp. unfold persisted. rewrite Run_this. cbn [this].
    destruct (recorded_text (Some (label item))); reflexivity.
Qed.

End PromptAndRunFacts.

Lemma prompt_opens_with_seed_and_history_witness :
  persisted remembering !! 1 = Some "q" /\
  map label (items (input (executor "e" remembering))) = ["e"; "w"; "q"] /\
  items (input (executor "e" remembering)) !! 2 = Some (recalled "q" "1").
Proof.
  split; [vm_compute; reflexivity|].
  destruct (prompt_opens_with_seed_and_history "e" remembering) as (Hl & _ & Hi).
  split; [rewrite Hl; vm_compute; reflexivity|].
  exact (Hi 1 "q" ltac:(vm_compute; reflexivity)).
Defined.

Lemma typed_item_follows_value_witness :
  existsb is_terminal [ChangeValue "wa"; ChangeSelection []] = false /\
  items (input (pump false (executor "w" remembering)
                  ([ChangeValue "wa"; ChangeSelection []] ++ [ChangeValue "wq"]))) =
  [typed "wq"] ++ recalled_items remembering.
Proof.
  split; [reflexivity|].
  exact (typed_item_follows_value false "w" remembering
           [ChangeValue "wa"; ChangeSelection []] "wq" eq_refl).
Defined.

Lemma prompt_ignores_events_after_terminal_witness :
  existsb is_terminal [ChangeValue "wq"] = false /\ is_terminal Hide = true /\
  promptForCommand true "w" remembering
    ([ChangeValue "wq"] ++ Hide :: [ChangeSelection [typed "wq"]]) =
  promptForCommand true "w" remembering ([ChangeValue "wq"] ++ [Hide]).
Proof.
  split; [reflexivity|]. split; [reflexivity|].
  exact (prompt_ignores_events_after_terminal true "w" remembering [ChangeValue "wq"]
           Hide [ChangeSelection [typed "wq"]] eq_refl eq_refl).
Defined.

Lemma dismissal_resolves_without_command_witness :
  existsb is_terminal [ChangeValue "wq"] = false /\
  exists st,
    promptForCommand false "w" remembering ([ChangeValue "wq"] ++ Hide :: []) =
      Some (None, st) /\
    owner st = remembering /\ disposed (input st) = true.
Proof.
  split; [reflexivity|].
  exact (dismissal_resolves_without_command false "w" remembering [ChangeValue "wq"] []
           eq_refl).
Defined.

Lemma PromptAndRun_without_command_witness :
  let env := accepting_env false false true (Return tt) (Return "") None in
  let off := accepting_env false false false (Return tt) (Return "") None in
  let w := {| this := remembering; trace := [] |} in
  activeTextEditor off = false /\ activeTextEditor env = true /\
  existsb is_terminal [ChangeValue "wq"] = false /\
  PromptAndRun off normal_state false "w" [ChangeSelection [typed "w"]] w =
    Some (emit (EvLogDebug "No active document") w, Return tt) /\
  PromptAndRun env normal_state false "w" ([ChangeValue "wq"] ++ Hide :: []) w =
    Some (w, Return tt).
Proof.
  intros env off w.
  split; [reflexivity|]. split; [reflexivity|]. split; [reflexivity|]. split.
  - exact (proj1 (PromptAndRun_without_command off normal_state false "w" w)
             eq_refl [ChangeSelection [typed "w"]]).
  - exact (proj2 (PromptAndRun_without_command env normal_state false "w" w)
             eq_refl [ChangeValue "wq"] [] eq_refl).
Defined.

Lemma prompt_touches_history_key_only_witness :
  exists value st,
    promptForCommand false "q" sharing [ChangeSelection [typed "q"]] = Some (value, st) /\
    "OTHER_KEY" <> VIM_HISTORY_KEY /\
    (_memo (owner st) ≫= fun memo => memo !! "OTHER_KEY") = Some ["x"] /\
    _history (owner st) = [].
Proof.
  destruct (promptForCommand false "q" sharing [ChangeSelection [typed "q"]])
    as [[value st]|] eqn:Hrun; [|vm_compute in Hrun; discriminate].
  exists value, st. split; [reflexivity|]. split; [discriminate|].
  destruct (prompt_touches_history_key_only false "q" sharing
              [ChangeSelection [typed "q"]] value st Hrun) as (Hh & _ & _ & Hk).
  split; [|exact Hh].
  rewrite (Hk "OTHER_KEY" ltac:(discriminate)). vm_compute. reflexivity.
Defined.

Lemma PromptAndRun_runs_selection_witness :
  let env := accepting_env false false true (Return tt) (Return "") None in
  let w := {| this := remembering; trace := [] |} in
  activeTextEditor env = true /\
  existsb is_terminal [ChangeValue ":help"] = false /\
  exists w1,
    PromptAndRun env normal_state false ""
      ([ChangeValue ":help"] ++ ChangeSelection [typed ":help"] :: []) w =
      Some (Run env normal_state (Some ":help") w1) /\
    historyEntries (this (fst (Run env normal_state (Some ":help") w1))) = [] /\
    persisted (this (fst (Run env normal_state (Some ":help") w1))) = [":help"; "w"; "q"].
Proof.
  intros env w. split; [reflexivity|]. split; [reflexivity|].
  destruct (PromptAndRun_runs_selection env normal_state false "" w
              [ChangeValue ":help"] (typed ":help") [] [] eq_refl eq_refl)
    as (w1 & Hrun & _ & Hh & Hp).
  exists w1. split; [exact Hrun|]. split.
  - exact Hh.
  - change (label (typed ":help")) with ":help" in Hp. rewrite Hp.
    vm_compute. reflexivity.
Defined.
